(** * Tool output arbitration, streaming event mapping and agent lifecycle
    of [server.py], as a shallow embedding.

    Python values are restricted to the JSON-like fragment the server
    handles (no floats); a Python [str] is a Rocq [string] whose characters
    are the code points 0..255, so [len] is [String.length]. *)

From Stdlib Require Import ZArith Lia Ascii String List Bool DecimalString.
From stdpp Require Import gmap strings list.
Import ListNotations.

#[local] Set Warnings "-register-all,-clear-no-such-hyp".

Local Open Scope string_scope.
Local Open Scope list_scope.

(** ** Python values *)

Module Py.

(** The results a tool hands back.  [PyEmptyTuple] is the value [()], the
    only tuple that survives the unwrapping of [(data, metadata)] results. *)
Inductive PyValue : Type :=
| PyNone
| PyBool (b : bool)
| PyInt (z : Z)
| PyStr (s : string)
| PyList (items : list PyValue)
| PyDict (items : list (string * PyValue))
| PyEmptyTuple.

(** What a coroutine returns: a value, or a non-empty tuple of values. *)
Inductive ToolReturn : Type :=
| Plain (v : PyValue)
| Tuple (first : PyValue) (others : list PyValue).

Definition is_str (v : PyValue) : bool :=
  match v with PyStr _ => true | _ => false end.

(** [s[:n]] *)
Fixpoint str_take (n : nat) (s : string) : string :=
  match n, s with
  | S n', String c s' => String c (str_take n' s')
  | _, _ => EmptyString
  end.

(** [sep.join(parts)] *)
Fixpoint join (sep : string) (parts : list string) : string :=
  match parts with
  | [] => ""
  | [p] => p
  | p :: rest => p +:+ sep +:+ join sep rest
  end.

(** The decimal text of an [int]: what [str(n)] gives when it does not
    raise (see [serialized] for the digit limit). *)
Definition str_of_Z (z : Z) : string := NilZero.string_of_int (Z.to_int z).
Definition str_of_nat (n : nat) : string := str_of_Z (Z.of_nat n).

Definition hex_digit (n : N) : ascii :=
  ascii_of_N (if (n <? 10)%N then 48 + n else 87 + n)%N.

Definition dquote : string := String (ascii_of_N 34) EmptyString.

(** One character under [json.dumps] with [ensure_ascii=True]: the quote,
    the backslash and everything outside [' '..'~'] are escaped. *)
Definition json_escape_char (c : ascii) : string :=
  let n := N_of_ascii c in
  if (n =? 34)%N then "\" +:+ dquote
  else if (n =? 92)%N then "\\"
  else if (n =? 8)%N then "\b"
  else if (n =? 12)%N then "\f"
  else if (n =? 10)%N then "\n"
  else if (n =? 13)%N then "\r"
  else if (n =? 9)%N then "\t"
  else if ((32 <=? n) && (n <=? 126))%N then String c EmptyString
  else "\u00" +:+ String (hex_digit (n / 16)) (String (hex_digit (n mod 16)) EmptyString).

Fixpoint json_escape (s : string) : string :=
  match s with
  | EmptyString => EmptyString
  | String c s' => json_escape_char c +:+ json_escape s'
  end.

Definition json_string (s : string) : string := dquote +:+ json_escape s +:+ dquote.

(** [json.dumps(v)]: separators [", "] and [": "], keys in insertion order. *)
Fixpoint json_dumps (v : PyValue) : string :=
  match v with
  | PyNone => "null"
  | PyBool true => "true"
  | PyBool false => "false"
  | PyInt z => str_of_Z z
  | PyStr s => json_string s
  | PyList items => "[" +:+ join ", " (map json_dumps items) +:+ "]"
  | PyDict items =>
      "{" +:+ join ", " (map (fun kv => let '(k, x) := kv in
                                        json_string k +:+ ": " +:+ json_dumps x) items) +:+ "}"
  | PyEmptyTuple => "[]"
  end.

Definition newline : string := String (ascii_of_N 10) EmptyString.

Fixpoint spaces (n : nat) : string :=
  match n with O => EmptyString | S n' => String (ascii_of_N 32) (spaces n') end.

Definition newline_indent (indent level : nat) : string :=
  newline +:+ spaces (indent * level).

(** [json.dumps(v, indent=indent)] at nesting depth [level]. *)
Fixpoint json_dumps_indent (indent level : nat) (v : PyValue) : string :=
  match v with
  | PyList [] => "[]"
  | PyList items =>
      "[" +:+ newline_indent indent (S level)
          +:+ join ("," +:+ newline_indent indent (S level))
                   (map (json_dumps_indent indent (S level)) items)
          +:+ newline_indent indent level +:+ "]"
  | PyDict [] => "{}"
  | PyDict items =>
      "{" +:+ newline_indent indent (S level)
          +:+ join ("," +:+ newline_indent indent (S level))
                   (map (fun kv => let '(k, x) := kv in
                                   json_string k +:+ ": " +:+ json_dumps_indent indent (S level) x)
                        items)
          +:+ newline_indent indent level +:+ "}"
  | other => json_dumps other
  end.

(** [len(s)], a Python [int]. *)
Definition len (s : string) : Z := Z.of_nat (String.length s).

(** [json.dumps(result) if isinstance(result, (dict, list)) else str(result)] *)
Definition result_str (result : PyValue) : string :=
  match result with
  | PyDict _ | PyList _ => json_dumps result
  | PyNone => "None"
  | PyBool true => "True"
  | PyBool false => "False"
  | PyInt z => str_of_Z z
  | PyStr s => s
  | PyEmptyTuple => "()"
  end.

(** [d[k] = v] on a dict kept as its items in insertion order. *)
Fixpoint dict_set (k : string) (v : PyValue) (d : list (string * PyValue))
  : list (string * PyValue) :=
  match d with
  | [] => [(k, v)]
  | (k', v') :: rest =>
      if String.eqb k' k then (k, v) :: rest else (k', v') :: dict_set k v rest
  end.

(** A call either returns or raises. *)
Inductive Outcome (A : Type) : Type :=
| Returned (a : A)
| Raised (exc : string).
Arguments Returned {A} a.
Arguments Raised {A} exc.

End Py.
Import Py.

(** ** The output arbiter: [wrapped_func] inside [wrap_mcp_tool] *)

Module Arbiter.

(** The part of the file system the wrapper touches. *)
Record FileSystem : Type := {
  dirs : gset string;
  files : gmap string string
}.

(** Which of the wrapper's file operations fail in a given call.
    [first_write_stops = Some n]: the write inside [try] raises after [n]
    characters reached the file. *)
Record Faults : Type := {
  makedirs_fails : bool;
  open_fails : bool;
  first_write_stops : option nat;
  fallback_write_fails : bool
}.

Definition no_faults : Faults :=
  {| makedirs_fails := false; open_fails := false;
     first_write_stops := None; fallback_write_fails := false |}.

Definition empty_fs : FileSystem := {| dirs := ∅; files := ∅ |}.

Definition cap : Z := 10000.
Definition field_cap : Z := 200.
Definition scalar_cap : Z := 2000.

(** Unwrapping of [(data, metadata)] tuples, then [json.loads] on a [str]
    result, kept as it is when parsing raises.  [json_loads] is the library
    function, [None] standing for a raised exception. *)
Definition normalize (json_loads : string -> option PyValue) (returned : ToolReturn) : PyValue :=
  let result := match returned with
                | Tuple first _ => first
                | Plain v => v
                end in
  match result with
  | PyStr s => match json_loads s with
               | Some parsed => parsed
               | None => result
               end
  | _ => result
  end.

(** [f"mcp_output/{original_tool.name}_{timestamp}.json"] *)
Definition spool_filename (tool_name timestamp : string) : string :=
  "mcp_output/" +:+ tool_name +:+ "_" +:+ timestamp +:+ ".json".

Definition write_file (fs : FileSystem) (filename content : string) : FileSystem :=
  {| dirs := dirs fs; files := <[filename := content]> (files fs) |}.

(** [os.makedirs], [open(filename, 'w')] and the guarded write.  The
    [OSError] of a failed [os.makedirs] or [open] names the path it was
    called on. *)
Definition spool (faults : Faults) (fs : FileSystem) (filename : string)
    (result : PyValue) : Outcome unit * FileSystem :=
  if makedirs_fails faults
  then (Raised "OSError: cannot create directory 'mcp_output'", fs)
  else
    let fs1 := {| dirs := {[ "mcp_output" ]} ∪ dirs fs; files := files fs |} in
    if open_fails faults
    then (Raised ("OSError: cannot open '" +:+ filename +:+ "'"), fs1)
    else
      let first_write := match result with
                         | PyDict _ | PyList _ => json_dumps_indent 2 0 result
                         | _ => result_str result
                         end in
      match first_write_stops faults with
      | None => (Returned tt, write_file fs1 filename first_write)
      | Some n =>
          let partial := str_take n first_write in
          if fallback_write_fails faults
          then (Raised "OSError: write failed", write_file fs1 filename partial)
          else (Returned tt, write_file fs1 filename (partial +:+ result_str result))
      end.

Definition truncate_value (value : PyValue) : PyValue :=
  match value with
  | PyStr s => if (field_cap <? len s)%Z then PyStr (str_take 200 s +:+ "...") else value
  | _ => value
  end.

(** One iteration of the loop over [result.items()]. *)
Definition truncate_step (truncated_result : list (string * PyValue))
    (kv : string * PyValue) : list (string * PyValue) :=
  let '(key, value) := kv in
  dict_set key (truncate_value value) truncated_result.

(** The loop over [result.items()] filling [truncated_result]. *)
Definition truncate_dict (items : list (string * PyValue)) : list (string * PyValue) :=
  fold_left truncate_step items [].

Definition truncate_item (item : PyValue) : PyValue :=
  match item with
  | PyDict d => PyDict (truncate_dict d)
  | _ => item
  end.

Definition truncate_list (result : list PyValue) : list PyValue :=
  let truncated_list := map truncate_item (take 5 result) in
  if (5 <? Z.of_nat (length result))%Z
  then truncated_list ++
       [PyStr ("... and " +:+ str_of_Z (Z.of_nat (length result) - 5) +:+ " more items")]
  else truncated_list.

(** The value handed to the agent for an oversized result. *)
Definition truncate (result : PyValue) : PyValue :=
  match result with
  | PyDict d => PyDict (truncate_dict d)
  | PyList l => PyList (truncate_list l)
  | _ =>
      let s := result_str result in
      if (scalar_cap <? len s)%Z then PyStr (str_take 2000 s +:+ "...") else PyStr s
  end.

(** [sys.get_int_max_str_digits()]: CPython turns an [int] into text only
    when it has at most this many digits. *)
Definition max_str_digits : Z := 4300.

(** Number of decimal digits of an [int], the sign not counted. *)
Definition int_digits (z : Z) : Z := len (str_of_Z (Z.abs z)).

(** Can every [int] inside the value be printed? *)
Fixpoint within_int_limit (v : PyValue) : bool :=
  match v with
  | PyInt z => (int_digits z <=? max_str_digits)%Z
  | PyList items => forallb within_int_limit items
  | PyDict items => forallb (fun kv => let '(_, x) := kv in within_int_limit x) items
  | _ => true
  end.

(** [json.dumps(result) if isinstance(result, (dict, list)) else str(result)]
    as evaluated: an [int] over the digit limit makes either raise
    [ValueError]. *)
Definition serialized (result : PyValue) : Outcome string :=
  if within_int_limit result
  then Returned (result_str result)
  else Raised "ValueError: Exceeds the limit (4300 digits) for integer string conversion".

(** One call of the wrapped coroutine, from the value the original
    coroutine returned.  [timestamp] is [datetime.now()] formatted. *)
Definition wrapped_func (json_loads : string -> option PyValue)
    (tool_name timestamp : string) (faults : Faults) (fs : FileSystem)
    (returned : ToolReturn) : Outcome PyValue * FileSystem :=
  let result := normalize json_loads returned in
  match serialized result with
  | Raised e => (Raised e, fs)
  | Returned result_str =>
      if (cap <? len result_str)%Z then
        let filename := spool_filename tool_name timestamp in
        match spool faults fs filename result with
        | (Raised e, fs') => (Raised e, fs')
        | (Returned _, fs') => (Returned (truncate result), fs')
        end
      else (Returned result, fs)
  end.

(** Size of a delivered payload, measured as the wrapper measures results. *)
Definition payload_size (v : PyValue) : Z := len (result_str v).

(** A field value within the field cap plus the ellipsis. *)
Definition field_bounded (x : PyValue) : Prop :=
  match x with
  | PyStr s => (len s <= 203)%Z
  | _ => True
  end.

End Arbiter.

(** ** The tool composer: wrapping of browser tools in [initialize_agent] *)

Module Composer.

Definition Kwargs : Type := gmap string PyValue.

(** A tool's callable: positional and keyword arguments in, outcome out. *)
Definition Callable (R : Type) : Type := list PyValue -> Kwargs -> Outcome R.

(** An attribute that an object may lack ([hasattr]). *)
Inductive Attr (A : Type) : Type :=
| Missing
| Has (a : A).
Arguments Missing {A}.
Arguments Has {A} a.

(** A tool object.  [coroutine] and [func] hold [None] or a callable. *)
Record Tool (R : Type) : Type := {
  name : string;
  description : string;
  coroutine : Attr (option (Callable R));
  func : option (Callable R);
  args_schema : list string
}.
Arguments name {R} _.
Arguments description {R} _.
Arguments coroutine {R} _.
Arguments func {R} _.
Arguments args_schema {R} _.

Definition browser_tool_names : list string :=
  ["browser_research"; "browser_research_multiple"; "browser_interactive_research"].

Definition is_browser_tool {R} (tool : Tool R) : bool :=
  existsb (String.eqb (name tool)) browser_tool_names.

(** [tool.coroutine if hasattr(tool, 'coroutine') else tool.func] *)
Definition original_func {R} (tool : Tool R) : option (Callable R) :=
  match coroutine tool with
  | Has c => c
  | Missing => func tool
  end.

(** Calling [original]; calling [None] raises [TypeError]. *)
Definition call {R} (original : option (Callable R)) : Callable R :=
  fun args kwargs =>
    match original with
    | Some f => f args kwargs
    | None => Raised "TypeError: 'NoneType' object is not callable"
    end.

(** [create_wrapped_browser_tool(original, headless_val)] *)
Definition create_wrapped_browser_tool {R} (original : option (Callable R))
    (headless_val : bool) : Callable R :=
  fun args kwargs =>
    let kwargs := <["headless" := PyBool headless_val]> kwargs in
    call original args kwargs.

Definition mode_annotation (headless : bool) : string :=
  " (Browser mode: " +:+ (if headless then "headless/invisible" else "visible/slow") +:+ ")".

(** One iteration of the loop over [custom_tools]. *)
Definition wrap_custom_tool {R} (headless : bool) (tool : Tool R) : Tool R :=
  if is_browser_tool tool then
    let wrapped_func := create_wrapped_browser_tool (original_func tool) headless in
    {| name := name tool;
       description := description tool +:+ mode_annotation headless;
       coroutine := Has (Some wrapped_func);
       func := None;
       args_schema := args_schema tool |}
  else tool.

Definition wrapped_custom_tools {R} (headless : bool) (custom_tools : list (Tool R))
  : list (Tool R) :=
  map (wrap_custom_tool headless) custom_tools.

End Composer.

(** ** The session event mapper: [generate] inside [chat] *)

Module Mapper.

(** A tool call dict.  [tc_name = None]: no ['name'] key; [tc_id = None]: no
    ['id'] key, [Some None]: the key holds [None]. *)
Record ToolCall : Type := {
  tc_name : option string;
  tc_id : option (option string);
  tc_args : option PyValue
}.

(** A message object: its class name and the two attributes read. *)
Record Message : Type := {
  msg_type : string;
  tool_calls : option (list ToolCall);
  msg_content : option string
}.

(** A state update: the value under ["messages"], if the key is there. *)
Definition Chunk : Type := option (list Message).

(** What [agent.astream] does: yields [chunks], then stops or raises. *)
Record Source : Type := {
  chunks : list Chunk;
  failure : option string
}.

Record Event : Type := {
  ev_type : string;
  ev_content : string
}.

(** An emitted event together with the tool call it comes from. *)
Inductive Emission : Type :=
| EmitThinking (tool_call : ToolCall)
| EmitToken (content : string)
| EmitFinal (content : string)
| EmitError (message : string).

Record GenState : Type := {
  final_response : string;
  step_count : nat;
  seen_tool_calls : gset string
}.

Definition initial_state : GenState :=
  {| final_response := ""; step_count := 0; seen_tool_calls := ∅ |}.

(** [tool_call.get('name', 'unknown')] *)
Definition call_name (tc : ToolCall) : string := default "unknown" (tc_name tc).

(** How the value under ['id'] prints inside an f-string. *)
Definition id_text (id : option (option string)) : string :=
  match id with
  | None => ""
  | Some None => "None"
  | Some (Some s) => s
  end.

(** [tool_call.get('id', '')] inside an f-string *)
Definition call_id_text (tc : ToolCall) : string := id_text (tc_id tc).

(** [f"{tool_call.get('name', 'unknown')}_{tool_call.get('id', '')}"] *)
Definition tool_call_id (tc : ToolCall) : string :=
  call_name tc +:+ "_" +:+ call_id_text tc.

(** The identity of a call: tool name and call id. *)
Definition call_identity (tc : ToolCall) : string * option (option string) :=
  (call_name tc, tc_id tc).

Definition event_of (e : Emission) : Event :=
  match e with
  | EmitThinking tc =>
      {| ev_type := "thinking"; ev_content := "Calling " +:+ call_name tc +:+ "..." |}
  | EmitToken content => {| ev_type := "token"; ev_content := content |}
  | EmitFinal content => {| ev_type := "final"; ev_content := content |}
  | EmitError message => {| ev_type := "error"; ev_content := message |}
  end.

(** [f"data: {json.dumps({'type': ..., 'content': ...})}\n\n"] *)
Definition sse_frame (ev : Event) : string :=
  "data: " +:+ json_dumps (PyDict [("type", PyStr (ev_type ev)); ("content", PyStr (ev_content ev))])
           +:+ newline +:+ newline.

Definition is_space (c : ascii) : bool :=
  let n := N_of_ascii c in
  ((9 <=? n) && (n <=? 13) || (28 <=? n) && (n <=? 32) || (n =? 133) || (n =? 160))%N.

Fixpoint lstrip (s : string) : string :=
  match s with
  | String c s' => if is_space c then lstrip s' else s
  | EmptyString => EmptyString
  end.

Fixpoint rstrip (s : string) : string :=
  match s with
  | String c s' =>
      match rstrip s' with
      | EmptyString => if is_space c then EmptyString else String c EmptyString
      | rest => String c rest
      end
  | EmptyString => EmptyString
  end.

(** [s.strip()] *)
Definition strip (s : string) : string := rstrip (lstrip s).

(** The loop over [last_message.tool_calls]. *)
Fixpoint surface_calls (st : GenState) (calls : list ToolCall) : GenState * list Emission :=
  match calls with
  | [] => (st, [])
  | tool_call :: rest =>
      if bool_decide (tool_call_id tool_call ∈ seen_tool_calls st)
      then surface_calls st rest
      else
        let st1 := {| final_response := final_response st;
                      step_count := S (step_count st);
                      seen_tool_calls := {[ tool_call_id tool_call ]} ∪ seen_tool_calls st |} in
        let '(st2, out) := surface_calls st1 rest in
        (st2, EmitThinking tool_call :: out)
  end.

Definition is_nonempty {A} (o : option (list A)) : bool :=
  match o with Some (_ :: _) => true | _ => false end.

(** The body of the [async for] loop for one chunk. *)
Definition process_chunk (st : GenState) (chunk : Chunk) : GenState * list Emission :=
  match chunk with
  | None => (st, [])
  | Some messages =>
      match last messages with
      | None => (st, [])
      | Some last_message =>
          if String.eqb (msg_type last_message) "AIMessage"
             && is_nonempty (tool_calls last_message)
          then surface_calls st (default [] (tool_calls last_message))
          else
            match msg_content last_message with
            | Some raw =>
                if String.eqb (msg_type last_message) "AIMessage" && negb (String.eqb raw "")
                then
                  let content := strip raw in
                  if negb (String.eqb content "") && negb (String.eqb content (final_response st))
                  then ({| final_response := content;
                           step_count := step_count st;
                           seen_tool_calls := seen_tool_calls st |},
                        [EmitToken content])
                  else (st, [])
                else (st, [])
            | None => (st, [])
            end
      end
  end.

Fixpoint run_chunks (st : GenState) (cs : list Chunk) : GenState * list Emission :=
  match cs with
  | [] => (st, [])
  | chunk :: rest =>
      let '(st1, out1) := process_chunk st chunk in
      let '(st2, out2) := run_chunks st1 rest in
      (st2, out1 ++ out2)
  end.

(** Everything [generate] emits for one source. *)
Definition generate_trace (src : Source) : list Emission :=
  let '(st, out) := run_chunks initial_state (chunks src) in
  match failure src with
  | Some e => out ++ [EmitError e]
  | None =>
      if negb (String.eqb (final_response st) "")
      then out ++ [EmitFinal (final_response st)]
      else out ++ [EmitFinal "Task completed."]
  end.

Definition generate_events (src : Source) : list Event := map event_of (generate_trace src).

(** The strings [generate] yields. *)
Definition generate (src : Source) : list string := map sse_frame (generate_events src).

Definition is_terminal (ev : Event) : bool :=
  String.eqb (ev_type ev) "final" || String.eqb (ev_type ev) "error".

Definition is_thinking (e : Emission) : bool :=
  match e with EmitThinking _ => true | _ => false end.

(** The tool calls surfaced as thinking events, in order. *)
Definition surfaced_calls (trace : list Emission) : list ToolCall :=
  omap (fun e => match e with EmitThinking tc => Some tc | _ => None end) trace.

(** Is [e] a thinking event for the call identity [ident]? *)
Definition thinking_of (ident : string * option (option string)) (e : Emission) : bool :=
  match e with
  | EmitThinking tc => bool_decide (call_identity tc = ident)
  | _ => false
  end.

(** Number of thinking events emitted for [ident]. *)
Definition count_thinking (ident : string * option (option string))
    (trace : list Emission) : nat :=
  length (List.filter (thinking_of ident) trace).

Definition thinking_event (tool_name : string) : Event :=
  {| ev_type := "thinking"; ev_content := "Calling " +:+ tool_name +:+ "..." |}.

(** What one stretch of the loop guarantees: the seen set only grows, no
    terminal event is emitted, and the surfaced calls have pairwise distinct
    keys, all new to the set before and all in the set after. *)
Definition step_ok (st st' : GenState) (out : list Emission) : Prop :=
  (seen_tool_calls st ⊆ seen_tool_calls st')
  /\ Forall (fun e => is_terminal (event_of e) = false) out
  /\ NoDup (map tool_call_id (surfaced_calls out))
  /\ forall tc, In tc (surfaced_calls out) ->
       (tool_call_id tc ∉ seen_tool_calls st) /\ (tool_call_id tc ∈ seen_tool_calls st').

End Mapper.

(** ** The agent lifecycle manager and the request handlers *)

Module Lifecycle.

Record ChatMessage : Type := {
  role : string;
  content : string
}.

Record ChatRequest : Type := {
  messages : list ChatMessage;
  stream : bool;
  enable_research : bool;
  system_prompt : option string;
  model : option string;
  headless : bool
}.

Record StructuredChatRequest : Type := {
  s_messages : list ChatMessage;
  structured_output_format : list (string * PyValue);
  s_system_prompt : option string;
  s_model : option string;
  s_enable_research : bool;
  s_headless : bool
}.

(** What the process runs in: [config.MODEL], the default instructions (an
    f-string over the browser mode), whether MCP servers are enabled, and
    whether the n-th object construction raises. *)
Record Env : Type := {
  config_MODEL : string;
  default_instructions : bool -> string;
  mcp_enabled : bool;
  create_fails : nat -> bool
}.

(** An agent object: [agent_id] is its identity, the other fields record
    what [create_deep_agent] was called with. *)
Record Agent : Type := {
  agent_id : nat;
  agent_system_prompt : string;
  agent_model : string;
  agent_headless : bool;
  agent_research : bool
}.

(** [AgentManager]; [created] counts the objects constructed so far. *)
Record AgentManager : Type := {
  agent : option Agent;
  mcp_client : option nat;
  created : nat
}.

Definition new_manager : AgentManager :=
  {| agent := None; mcp_client := None; created := 0 |}.

(** Python truthiness of an [Optional[str]]. *)
Definition truthy (o : option string) : bool :=
  match o with
  | Some s => negb (String.eqb s "")
  | None => false
  end.

(** [initialize_agent(instructions, enable_research, model, headless)] *)
Definition initialize_agent (env : Env) (instructions : option string)
    (enable_research : bool) (model : option string) (headless : bool)
    (m : AgentManager) : Outcome Agent * AgentManager :=
  let m1 := if mcp_enabled env
            then {| agent := agent m; mcp_client := Some (created m); created := S (created m) |}
            else m in
  let instructions := match instructions with
                      | None => default_instructions env headless
                      | Some s => s
                      end in
  let selected_model := if truthy model then default "" model else config_MODEL env in
  if create_fails env (created m1)
  then (Raised "create_deep_agent failed",
        {| agent := agent m1; mcp_client := mcp_client m1; created := S (created m1) |})
  else
    let a := {| agent_id := created m1;
                agent_system_prompt := instructions;
                agent_model := selected_model;
                agent_headless := headless;
                agent_research := enable_research |} in
    (Returned a, {| agent := Some a; mcp_client := mcp_client m1; created := S (created m1) |}).

(** [get_agent()] *)
Definition get_agent (env : Env) (m : AgentManager) : Outcome Agent * AgentManager :=
  match agent m with
  | Some a => (Returned a, m)
  | None => initialize_agent env None true None true m
  end.

(** [reinitialize_agent(instructions, model, headless)] *)
Definition reinitialize_agent (env : Env) (instructions model : option string)
    (headless : bool) (m : AgentManager) : Outcome Agent * AgentManager :=
  let m1 := {| agent := None; mcp_client := None; created := created m |} in
  initialize_agent env instructions true model headless m1.

(** [request.system_prompt or request.model or request.headless != True] *)
Definition rebuild_requested (system_prompt model : option string) (headless : bool) : bool :=
  truthy system_prompt || truthy model || negb (Bool.eqb headless true).

(** The first statements of [chat] and [structured_chat]: the agent the
    request runs on. *)
Definition request_agent (env : Env) (system_prompt model : option string)
    (headless : bool) (m : AgentManager) : Outcome Agent * AgentManager :=
  if rebuild_requested system_prompt model headless then
    match reinitialize_agent env system_prompt model headless m with
    | (Raised e, m1) => (Raised e, m1)
    | (Returned _, m1) => get_agent env m1
    end
  else get_agent env m.

Definition chat_agent (env : Env) (request : ChatRequest) (m : AgentManager)
  : Outcome Agent * AgentManager :=
  request_agent env (system_prompt request) (model request) (headless request) m.

(** [messages[-10:]] when [len(messages) > 10] *)
Definition limit_history (messages : list ChatMessage) : list ChatMessage :=
  if (10 <? Z.of_nat (length messages))%Z
  then drop (length messages - 10) messages
  else messages.

(** The messages [chat] passes to [agent.astream] / [agent.ainvoke]. *)
Definition chat_messages (request : ChatRequest) : list ChatMessage :=
  limit_history (messages request).

Definition structured_instruction (format : list (string * PyValue)) : string :=
  let schema_str := json_dumps_indent 2 0 (PyDict format) in
  newline +:+ newline
  +:+ "IMPORTANT: You MUST respond with valid JSON matching this exact schema:" +:+ newline
  +:+ schema_str +:+ newline +:+ newline
  +:+ "Do not include any text outside the JSON object.".

(** [messages[-1]["content"] += instruction] when the last role is "user" *)
Fixpoint append_to_last_user (instruction : string) (messages : list ChatMessage)
  : list ChatMessage :=
  match messages with
  | [] => []
  | [m] => [if String.eqb (role m) "user"
            then {| role := role m; content := content m +:+ instruction |}
            else m]
  | m :: rest => m :: append_to_last_user instruction rest
  end.

(** The messages [structured_chat] passes to [agent.ainvoke]. *)
Definition structured_chat_messages (request : StructuredChatRequest) : list ChatMessage :=
  append_to_last_user (structured_instruction (structured_output_format request))
                      (limit_history (s_messages request)).

(** Every stored agent was constructed before now. *)
Definition manager_ok (m : AgentManager) : Prop :=
  forall a, agent m = Some a -> agent_id a < created m.

(** The update of the last message in [structured_chat]. *)
Definition with_instruction (instruction : string) (m : ChatMessage) : ChatMessage :=
  if String.eqb (role m) "user"
  then {| role := role m; content := content m +:+ instruction |}
  else m.

End Lifecycle.

(** ** Concrete inputs used to exercise the definitions *)

Module Samples.
Import Arbiter Composer Mapper Lifecycle.

(** [json.loads] on the one string it is asked about below: the text
    [[1, 2]] parses to a list, anything else here is not JSON. *)
Definition json_loads_sample (s : string) : option PyValue :=
  if String.eqb s "[1, 2]" then Some (PyList [PyInt 1; PyInt 2]) else None.

(** 2001 [None]s: 12006 characters of JSON. *)
Definition big_list : PyValue := PyList (repeat PyNone 2001).

(** A record with one long text field. *)
Definition big_dict : PyValue :=
  PyDict [("Id", PyInt 7); ("Description", PyStr (spaces (Z.to_nat 10001))); ("Tags", PyList [PyStr (spaces 300)])].


Definition retried_write : Faults :=
  {| makedirs_fails := false; open_fails := false;
     first_write_stops := Some 10; fallback_write_fails := false |}.

(** A browser tool defined with [@tool] on an [async def]: its coroutine
    reports the [headless] argument it was called with. *)
Definition browser_research : Tool PyValue :=
  {| name := "browser_research";
     description := "Research a topic by visiting and extracting content from a web page.";
     coroutine := Has (Some (fun _ kwargs => Returned (default PyNone (kwargs !! "headless"))));
     func := None;
     args_schema := ["url"; "wait_for_selector"; "extract_links"; "headless"] |}.

Definition call_search (args : PyValue) : ToolCall :=
  {| tc_name := Some "duckduckgo_search"; tc_id := Some (Some "call_1");
     tc_args := Some args |}.

Definition ai_tool_calls (calls : list ToolCall) : Message :=
  {| msg_type := "AIMessage"; tool_calls := Some calls; msg_content := Some "" |}.

Definition ai_text (text : string) : Message :=
  {| msg_type := "AIMessage"; tool_calls := Some []; msg_content := Some text |}.

Definition human_text (text : string) : Message :=
  {| msg_type := "HumanMessage"; tool_calls := None; msg_content := Some text |}.

Definition tool_text (text : string) : Message :=
  {| msg_type := "ToolMessage"; tool_calls := None; msg_content := Some text |}.

Definition args_rocq : PyValue := PyDict [("query", PyStr "rocq prover")].

(** The same call seen in the first and, after its result, the third snapshot. *)
Definition repeated_call_source : Source :=
  {| chunks := [Some [human_text "hi"; ai_tool_calls [call_search args_rocq]];
                Some [human_text "hi"; ai_tool_calls [call_search args_rocq]; tool_text "ok"];
                Some [human_text "hi"; ai_tool_calls [call_search args_rocq]];
                Some [human_text "hi"; ai_text "partial"];
                Some [human_text "hi"; ai_text "final answer"]];
     failure := None |}.

Definition failing_source : Source :=
  {| chunks := [Some [human_text "hi"; ai_text "partial"]];
     failure := Some "connection reset" |}.

(** A process without MCP servers in which every construction succeeds. *)
Definition quiet_env : Env :=
  {| config_MODEL := "anthropic:claude-sonnet-4-20250514";
     default_instructions := fun headless =>
       if headless then "You are an expert AI assistant (headless=True)."
       else "You are an expert AI assistant (headless=False).";
     mcp_enabled := false;
     create_fails := fun _ => false |}.

Definition user_says (text : string) : ChatMessage := {| role := "user"; content := text |}.

(** A request that only selects a model. *)
Definition request_model_x : ChatRequest :=
  {| messages := [user_says "hello"]; stream := true; enable_research := true;
     system_prompt := None; model := Some "openai:gpt-4"; headless := true |}.

(** A request that leaves every optional field out. *)
Definition request_plain : ChatRequest :=
  {| messages := [user_says "hello"]; stream := true; enable_research := true;
     system_prompt := None; model := None; headless := true |}.

Definition structured_request : StructuredChatRequest :=
  {| s_messages := [user_says "list two primes"];
     structured_output_format := [("type", PyStr "object")];
     s_system_prompt := None; s_model := None;
     s_enable_research := false; s_headless := true |}.

(** Twelve numbered user messages. *)
Definition twelve_messages : list ChatMessage :=
  map (fun n => user_says (str_of_nat n)) (seq 1 12).

End Samples.
Import Arbiter Composer Mapper Lifecycle Samples.

(** ** The MCP configuration: [MCPConfigManager] and its endpoints *)

Module McpConfig.

(** [d.get(k)] on a dict kept as its items. *)
Fixpoint dict_get (k : string) (d : list (string * PyValue)) : option PyValue :=
  match d with
  | [] => None
  | (k', v) :: rest => if String.eqb k' k then Some v else dict_get k rest
  end.

(** [del d[k]] for a key that is there. *)
Fixpoint dict_del (k : string) (d : list (string * PyValue)) : list (string * PyValue) :=
  match d with
  | [] => []
  | (k', v) :: rest => if String.eqb k' k then rest else (k', v) :: dict_del k rest
  end.

(** Python truthiness. *)
Definition py_truthy (v : PyValue) : bool :=
  match v with
  | PyNone => false
  | PyBool b => b
  | PyInt z => negb (z =? 0)%Z
  | PyStr s => negb (String.eqb s "")
  | PyList items => match items with [] => false | _ => true end
  | PyDict items => match items with [] => false | _ => true end
  | PyEmptyTuple => false
  end.

(** [{k: v for k, v in config.items() if k != "enabled"}] *)
Definition without_enabled (config : list (string * PyValue)) : list (string * PyValue) :=
  List.filter (fun kv => negb (String.eqb (fst kv) "enabled")) config.

(** The loop of [get_enabled_servers] over [mcp_servers.items()]; a server
    whose configuration is not a dict has no [get]. *)
Fixpoint enabled_loop (items enabled_servers : list (string * PyValue))
  : Outcome (list (string * PyValue)) :=
  match items with
  | [] => Returned enabled_servers
  | (name, PyDict config) :: rest =>
      if py_truthy (default (PyBool false) (dict_get "enabled" config))
      then enabled_loop rest (dict_set name (PyDict (without_enabled config)) enabled_servers)
      else enabled_loop rest enabled_servers
  | (name, _) :: rest => Raised "AttributeError: object has no attribute 'get'"
  end.

(** [MCPConfigManager.get_enabled_servers] on [self.config]. *)
Definition get_enabled_servers (config : list (string * PyValue))
  : Outcome (list (string * PyValue)) :=
  match default (PyDict []) (dict_get "mcp_servers" config) with
  | PyDict mcp_servers => enabled_loop mcp_servers []
  | _ => Raised "AttributeError: object has no attribute 'items'"
  end.

(** The request body of [add_mcp_server]. *)
Record MCPServerConfig : Type := {
  command : string;
  args : list string;
  env : option (list (string * string));
  enabled : bool
}.

(** The dict stored for a server; [server_config.env or {}]. *)
Definition server_entry (server_config : MCPServerConfig) : PyValue :=
  PyDict [("command", PyStr (command server_config));
          ("args", PyList (map PyStr (args server_config)));
          ("env", PyDict (map (fun kv => (fst kv, PyStr (snd kv)))
                              (default [] (env server_config))));
          ("enabled", PyBool (enabled server_config))].

(** The application objects the configuration endpoints work on:
    [agent_manager], [agent_manager.mcp_config_manager.config] (one dict
    object, updated in place) and the content of the configuration file,
    if it exists. *)
Record AppState : Type := {
  manager : AgentManager;
  config : list (string * PyValue);
  config_file : option string
}.

Inductive Response : Type :=
| StreamingResponse (frames : list string)
| JSONResponse (body : PyValue)
| HTTPException (status_code : nat) (detail : string).

Definition success (message : string) : Response :=
  JSONResponse (PyDict [("status", PyStr "success"); ("message", PyStr message)]).

(** [initialize_agent] reads the enabled servers from the configuration:
    the environment of the lifecycle functions with [mcp_enabled] set from
    them. *)
Definition env_with_servers (env : Env) (servers : list (string * PyValue)) : Env :=
  {| config_MODEL := config_MODEL env;
     default_instructions := default_instructions env;
     mcp_enabled := match servers with [] => false | _ => true end;
     create_fails := create_fails env |}.

(** [agent_manager.reinitialize_agent(...)] under the configuration [config]. *)
Definition reinitialize_agent_on (env : Env) (config : list (string * PyValue))
    (instructions model : option string) (headless : bool) (m : AgentManager)
  : Outcome Agent * AgentManager :=
  match get_enabled_servers config with
  | Raised e => (Raised e, {| agent := None; mcp_client := None; created := created m |})
  | Returned servers =>
      reinitialize_agent (env_with_servers env servers) instructions model headless m
  end.

(** [save_config(current_config)], [save_fails] saying that [open] raises;
    then the optional rebuild and the answer [message]. *)
Definition save_and_reload (env : Env) (save_fails rebuild : bool) (message : string)
    (new_config : list (string * PyValue)) (st : AppState) : Response * AppState :=
  if save_fails
  then (HTTPException 500 "OSError: open",
        {| manager := manager st; config := new_config; config_file := config_file st |})
  else
    let file := Some (json_dumps_indent 2 0 (PyDict new_config)) in
    if rebuild then
      match reinitialize_agent_on env new_config None None true (manager st) with
      | (Raised e, m) =>
          (HTTPException 500 e, {| manager := m; config := new_config; config_file := file |})
      | (Returned _, m) =>
          (success message, {| manager := m; config := new_config; config_file := file |})
      end
    else (success message,
          {| manager := manager st; config := new_config; config_file := file |}).

(** [add_mcp_server(server_name, server_config)] *)
Definition add_mcp_server (env : Env) (save_fails : bool) (server_name : string)
    (server_config : MCPServerConfig) (st : AppState) : Response * AppState :=
  let current_config :=
    match dict_get "mcp_servers" (config st) with
    | None => dict_set "mcp_servers" (PyDict []) (config st)
    | Some _ => config st
    end in
  match dict_get "mcp_servers" current_config with
  | Some (PyDict servers) =>
      let current_config :=
        dict_set "mcp_servers"
                 (PyDict (dict_set server_name (server_entry server_config) servers))
                 current_config in
      save_and_reload env save_fails (enabled server_config)
        ("MCP server '" +:+ server_name +:+ "' configured") current_config st
  | _ =>
      (HTTPException 500 "TypeError: object does not support item assignment",
       {| manager := manager st; config := current_config; config_file := config_file st |})
  end.

(** [sub in s] for two strings. *)
Fixpoint contains (sub s : string) : bool :=
  String.prefix sub s
  || match s with
     | String _ s' => contains sub s'
     | EmptyString => false
     end.

(** [delete_mcp_server(server_name)].  The 404 raised inside [try] is
    caught by [except Exception] and answered as a 500 whose detail is
    [str] of the caught exception, [http_str 404 "Server not found"]. *)
Definition delete_mcp_server (env : Env) (http_str : nat -> string -> string)
    (save_fails : bool) (server_name : string) (st : AppState) : Response * AppState :=
  let not_found := (HTTPException 500 (http_str 404 "Server not found"), st) in
  match dict_get "mcp_servers" (config st) with
  | None => not_found
  | Some (PyDict servers) =>
      match dict_get server_name servers with
      | None => not_found
      | Some _ =>
          let current_config :=
            dict_set "mcp_servers" (PyDict (dict_del server_name servers)) (config st) in
          save_and_reload env save_fails true
            ("MCP server '" +:+ server_name +:+ "' deleted") current_config st
      end
  | Some (PyList items) =>
      if existsb (fun x => match x with PyStr s => String.eqb s server_name | _ => false end)
                 items
      then (HTTPException 500 "TypeError: list indices must be integers or slices", st)
      else not_found
  | Some (PyStr s) =>
      if contains server_name s
      then (HTTPException 500 "TypeError: 'str' object does not support item deletion", st)
      else not_found
  | Some PyEmptyTuple => not_found
  | Some _ => (HTTPException 500 "TypeError: argument is not iterable", st)
  end.

(** [get_mcp_servers()] *)
Definition get_mcp_servers (st : AppState) : PyValue :=
  default (PyDict []) (dict_get "mcp_servers" (config st)).

(** [health_check()] *)
Definition health_check (env : Env) (st : AppState) : PyValue :=
  PyDict [("status", PyStr "healthy");
          ("agent_initialized", PyBool (bool_decide (agent (manager st) <> None)));
          ("model", PyStr (config_MODEL env))].

End McpConfig.

(** ** The chat endpoints *)

Module Endpoints.
Import McpConfig.

(** The agent as the handlers use it: [astream] yields snapshots and may
    raise, [ainvoke] returns the final message list or raises. *)
Record AgentRuntime : Type := {
  astream : Agent -> list ChatMessage -> Source;
  ainvoke : Agent -> list ChatMessage -> Outcome (list Message)
}.

(** [result["messages"][-1].content] *)
Definition last_content (result : list Message) : Outcome string :=
  match last result with
  | None => Raised "IndexError: list index out of range"
  | Some last_message =>
      match msg_content last_message with
      | None => Raised "AttributeError: object has no attribute 'content'"
      | Some content => Returned content
      end
  end.

(** [chat(request)] *)
Definition chat (env : Env) (rt : AgentRuntime) (request : ChatRequest) (m : AgentManager)
  : Response * AgentManager :=
  match chat_agent env request m with
  | (Raised e, m1) => (HTTPException 500 e, m1)
  | (Returned agent, m1) =>
      let messages := chat_messages request in
      if stream request
      then (StreamingResponse (generate (astream rt agent messages)), m1)
      else
        match ainvoke rt agent messages with
        | Raised e => (HTTPException 500 e, m1)
        | Returned result =>
            match last_content result with
            | Raised e => (HTTPException 500 e, m1)
            | Returned content =>
                (JSONResponse (PyDict [("response", PyStr content); ("done", PyBool true)]), m1)
            end
        end
  end.

Definition open_brace : ascii := ascii_of_N 123.
Definition close_brace : ascii := ascii_of_N 125.

(** The longest prefix of [s] that ends with a closing brace. *)
Fixpoint upto_last_close (s : string) : option string :=
  match s with
  | EmptyString => None
  | String c s' =>
      match upto_last_close s' with
      | Some t => Some (String c t)
      | None => if Ascii.eqb c close_brace then Some (String c EmptyString) else None
      end
  end.

(** [re.search(r'\{.*\}', s, re.DOTALL)]: the leftmost match starts at the
    first opening brace that has a closing brace after it, and the greedy
    [.*] runs to the last closing brace. *)
Fixpoint json_match (s : string) : option string :=
  match s with
  | EmptyString => None
  | String c s' =>
      if Ascii.eqb c open_brace
      then match upto_last_close s' with
           | Some t => Some (String c t)
           | None => json_match s'
           end
      else json_match s'
  end.

(** The text [structured_chat] hands to [json.loads]. *)
Definition text_to_parse (response_content : string) : string :=
  default response_content (json_match response_content).

(** The parsing step of [structured_chat]; [json_loads] raises
    [JSONDecodeError] with a message. *)
Definition parse_structured (json_loads : string -> Outcome PyValue)
    (response_content : string) : PyValue :=
  match json_loads (text_to_parse response_content) with
  | Returned structured_data =>
      PyDict [("data", structured_data);
              ("raw_response", PyStr response_content);
              ("success", PyBool true)]
  | Raised e =>
      PyDict [("data", PyNone);
              ("raw_response", PyStr response_content);
              ("success", PyBool false);
              ("error", PyStr ("Failed to parse JSON: " +:+ e))]
  end.

Definition structured_chat_agent (env : Env) (request : StructuredChatRequest)
    (m : AgentManager) : Outcome Agent * AgentManager :=
  request_agent env (s_system_prompt request) (s_model request) (s_headless request) m.

(** [structured_chat(request)] *)
Definition structured_chat (env : Env) (rt : AgentRuntime)
    (json_loads : string -> Outcome PyValue)
    (request : StructuredChatRequest) (m : AgentManager) : Response * AgentManager :=
  match structured_chat_agent env request m with
  | (Raised e, m1) => (HTTPException 500 e, m1)
  | (Returned agent, m1) =>
      match ainvoke rt agent (structured_chat_messages request) with
      | Raised e => (HTTPException 500 e, m1)
      | Returned result =>
          match last_content result with
          | Raised e => (HTTPException 500 e, m1)
          | Returned response_content =>
              (JSONResponse (parse_structured json_loads response_content), m1)
          end
      end
  end.

(** The body of [ConfigRequest]. *)
Record ConfigRequest : Type := {
  c_instructions : option string;
  c_enable_research : bool;
  c_headless : bool
}.

(** [update_config(request)] *)
Definition update_config (env : Env) (request : ConfigRequest) (m : AgentManager)
  : Response * AgentManager :=
  match reinitialize_agent env (c_instructions request) None (c_headless request) m with
  | (Raised e, m1) => (HTTPException 500 e, m1)
  | (Returned _, m1) => (success "Agent reinitialized", m1)
  end.

(** A JSON message sent on the WebSocket; [ws_done] is absent from error
    messages. *)
Record WsMessage : Type := {
  ws_type : string;
  ws_content : string;
  ws_done : option bool
}.

(** The [async for] loop of [websocket_chat] over the chunks of one turn. *)
Definition ws_chunk_messages (cs : list Chunk) : list WsMessage :=
  omap (fun chunk : Chunk =>
          match chunk with
          | Some messages =>
              match last messages with
              | Some last_message =>
                  match msg_content last_message with
                  | Some content =>
                      Some {| ws_type := "message"; ws_content := content;
                              ws_done := Some false |}
                  | None => None
                  end
              | None => None
              end
          | None => None
          end) cs.

Definition ws_done_message : WsMessage :=
  {| ws_type := "message"; ws_content := ""; ws_done := Some true |}.

Definition ws_error_message (e : string) : WsMessage :=
  {| ws_type := "error"; ws_content := e; ws_done := None |}.

(** The [while True] loop: one turn per received JSON message, until the
    client disconnects (the list ends) or a turn raises.  The boolean tells
    whether the server closed the socket. *)
Fixpoint ws_turns (rt : AgentRuntime) (agent : Agent) (received : list (list ChatMessage))
  : list WsMessage * bool :=
  match received with
  | [] => ([], false)
  | messages :: rest =>
      let src := astream rt agent messages in
      match failure src with
      | Some e => (ws_chunk_messages (chunks src) ++ [ws_error_message e], true)
      | None =>
          let '(sent, closed) := ws_turns rt agent rest in
          (ws_chunk_messages (chunks src) ++ [ws_done_message] ++ sent, closed)
      end
  end.

(** [websocket_chat(websocket)] *)
Definition websocket_chat (env : Env) (rt : AgentRuntime)
    (received : list (list ChatMessage)) (m : AgentManager)
  : (list WsMessage * bool) * AgentManager :=
  match get_agent env m with
  | (Raised e, m1) => (([ws_error_message e], true), m1)
  | (Returned agent, m1) => (ws_turns rt agent received, m1)
  end.

End Endpoints.

(** ** More concrete inputs *)

Module MoreSamples.
Import McpConfig Endpoints.

Definition filesystem_server : MCPServerConfig :=
  {| command := "npx";
     args := ["-y"; "@modelcontextprotocol/server-filesystem"; "./workspace"];
     env := None;
     enabled := true |}.

(** The configuration written when no file exists. *)
Definition default_config : list (string * PyValue) :=
  [("mcp_servers",
    PyDict [("example_filesystem",
             PyDict [("command", PyStr "npx");
                     ("args", PyList [PyStr "-y";
                                      PyStr "@modelcontextprotocol/server-filesystem";
                                      PyStr "./workspace"]);
                     ("transport", PyStr "stdio");
                     ("enabled", PyBool false)])])].

Definition fresh_app : AppState :=
  {| manager := new_manager; config := default_config; config_file := None |}.

(** [str] of an [HTTPException] as recent Starlette prints it. *)
Definition http_str_sample (status_code : nat) (detail : string) : string :=
  str_of_nat status_code +:+ ": " +:+ detail.

(** An agent that answers every conversation with one fixed message. *)
Definition echo_runtime : AgentRuntime :=
  {| astream := fun _ _ => {| chunks := [Some [ai_text "hello"]]; failure := None |};
     ainvoke := fun _ _ => Returned [ai_text "hello"] |}.

(** An agent whose stream breaks after the first snapshot. *)
Definition broken_runtime : AgentRuntime :=
  {| astream := fun _ _ => failing_source;
     ainvoke := fun _ _ => Raised "connection reset" |}.

(** An environment in which every construction fails. *)
Definition failing_env : Env :=
  {| config_MODEL := config_MODEL quiet_env;
     default_instructions := default_instructions quiet_env;
     mcp_enabled := false;
     create_fails := fun _ => true |}.

(** An environment in which only the first construction fails. *)
Definition flaky_env : Env :=
  {| config_MODEL := config_MODEL quiet_env;
     default_instructions := default_instructions quiet_env;
     mcp_enabled := false;
     create_fails := fun n => Nat.eqb n 0 |}.

(** A browser tool defined with [@tool] on a plain [def]: the function
    is under [func] and [coroutine] holds [None]. *)
Definition sync_browser_research : Tool PyValue :=
  {| name := "browser_research";
     description := "Research a topic by visiting a web page.";
     coroutine := Has None;
     func := Some (fun _ _ => Returned (PyStr "page text"));
     args_schema := ["url"; "headless"] |}.

Definition calculator : Tool PyValue :=
  {| name := "calculator";
     description := "Perform basic arithmetic operations.";
     coroutine := Has None;
     func := Some (fun _ _ => Returned (PyInt 3));
     args_schema := ["a"; "b"; "operation"] |}.

End MoreSamples.
Import McpConfig Endpoints MoreSamples.

(** ** Observations on event streams *)

Module Observers.

(** The contents of the token events of a stream, in order. *)
Definition token_contents (events : list Event) : list string :=
  map ev_content (List.filter (fun ev => String.eqb (ev_type ev) "token") events).

(** The contents of the token emissions of a trace. *)
Definition trace_tokens (trace : list Emission) : list string :=
  omap (fun e => match e with EmitToken content => Some content | _ => None end) trace.

(** Each token is non-empty, stripped and differs from the one before,
    [prev] being the content before the first. *)
Fixpoint token_chain (prev : string) (tokens : list string) : Prop :=
  match tokens with
  | [] => True
  | content :: rest =>
      content <> prev /\ content <> "" /\ strip content = content /\ token_chain content rest
  end.

(** A string that is empty or starts with a character that is no space. *)
Definition starts_unspaced (s : string) : Prop :=
  match s with
  | String c _ => is_space c = false
  | EmptyString => True
  end.

(** No chunk of [cs] ends with an [AIMessage]. *)
Definition no_ai_message (cs : list Chunk) : Prop :=
  forall messages last_message,
    In (Some messages) cs -> last messages = Some last_message ->
    msg_type last_message <> "AIMessage".

(** The code points [str.strip] removes (those for which [str.isspace]
    holds) among the first 256. *)
Definition python_whitespace : list N :=
  [9; 10; 11; 12; 13; 28; 29; 30; 31; 32; 133; 160]%N.

Definition first_char (s : string) : option ascii :=
  match s with
  | String c _ => Some c
  | EmptyString => None
  end.

Fixpoint last_char (s : string) : option ascii :=
  match s with
  | EmptyString => None
  | String c EmptyString => Some c
  | String _ s' => last_char s'
  end.

(** Does the character occur in the string? *)
Fixpoint has_char (c : ascii) (s : string) : bool :=
  match s with
  | EmptyString => false
  | String c' s' => Ascii.eqb c' c || has_char c s'
  end.

(** The entry [get_enabled_servers] returns for a server stored as [v]. *)
Definition enabled_entry (v : PyValue) : option PyValue :=
  match v with
  | PyDict cfg =>
      if py_truthy (default (PyBool false) (dict_get "enabled" cfg))
      then Some (PyDict (List.filter (fun kv => negb (String.eqb (fst kv) "enabled")) cfg))
      else None
  | _ => None
  end.

(** A server table as the endpoints write it: names once each, every
    server a dict. *)
Definition server_table (servers : list (string * PyValue)) : Prop :=
  NoDup (map fst servers)
  /\ forall name v, In (name, v) servers -> exists cfg, v = PyDict cfg.

End Observers.
Import Observers.

(** * Properties *)

(** ** Strings and dicts *)

Section StringFacts.

Lemma str_length_app (s t : string) :
  String.length (s +:+ t) = String.length s + String.length t.
Proof. induction s as [|c s IH]; simpl; [reflexivity | now rewrite IH]. Qed.

Lemma len_app (s t : string) : len (s +:+ t) = (len s + len t)%Z.
Proof. unfold len. rewrite str_length_app. lia. Qed.

Lemma len_nonneg (s : string) : (0 <= len s)%Z.
Proof. unfold len. lia. Qed.

Lemma str_take_length (n : nat) (s : string) : String.length (str_take n s) <= n.
Proof.
  revert s. induction n as [|n IH]; intros [|c s]; simpl; try lia.
  specialize (IH s). lia.
Qed.

Lemma len_str_take (n : nat) (s : string) : (len (str_take n s) <= Z.of_nat n)%Z.
Proof. unfold len. pose proof (str_take_length n s). lia. Qed.

Lemma spaces_length (n : nat) : String.length (spaces n) = n.
Proof. induction n as [|n IH]; simpl; [reflexivity | now rewrite IH]. Qed.

Lemma json_escape_spaces (n : nat) : json_escape (spaces n) = spaces n.
Proof. induction n as [|n IH]; simpl; [reflexivity | now rewrite IH]. Qed.

End StringFacts.

Section DictFacts.

Implicit Types (d acc : list (string * PyValue)) (k : string) (v : PyValue).

Lemma dict_set_fresh k v d :
  ~ In k (map fst d) -> dict_set k v d = d ++ [(k, v)].
Proof.
  induction d as [|[k' v'] d IH]; simpl; intros Hk; [reflexivity|].
  destruct (String.eqb_spec k' k) as [->|Hne].
  - exfalso. apply Hk. now left.
  - rewrite IH; [reflexivity|]. intros Hin. apply Hk. now right.
Qed.

Lemma dict_set_values (P : PyValue -> Prop) k v d :
  P v -> Forall P (map snd d) -> Forall P (map snd (dict_set k v d)).
Proof.
  intros Hv. induction d as [|[k' v'] d IH]; simpl; intros Hd.
  - constructor; [exact Hv | constructor].
  - inversion Hd as [|? ? Hv' Hd']; subst.
    destruct (String.eqb k' k); simpl; constructor; auto.
Qed.

End DictFacts.

(** ** The output arbiter *)

(** Case analysis on the four file operations of a call. *)
Ltac fault_cases faults :=
  destruct (makedirs_fails faults); [try reflexivity; try discriminate|];
  destruct (open_fails faults); [try reflexivity; try discriminate|];
  destruct (first_write_stops faults);
    [destruct (fallback_write_fails faults); [try reflexivity; try discriminate|]|];
  try reflexivity.

Section ArbiterFacts.

Variable json_loads : string -> option PyValue.

Lemma truncate_value_bounded (x : PyValue) : field_bounded (truncate_value x).
Proof.
  destruct x as [| | |s| | |]; try exact I.
  unfold truncate_value, field_cap.
  destruct (Z.ltb_spec 200 (len s)) as [Hlt|Hle]; unfold field_bounded.
  - rewrite len_app. pose proof (len_str_take 200 s). change (len "...") with 3%Z. lia.
  - lia.
Qed.

Lemma truncate_fold_bounded (items acc : list (string * PyValue)) :
  Forall field_bounded (map snd acc) ->
  Forall field_bounded (map snd (fold_left truncate_step items acc)).
Proof.
  revert acc. induction items as [|[k x] items IH]; simpl; intros acc Hacc; [exact Hacc|].
  apply IH. apply dict_set_values; [apply truncate_value_bounded | exact Hacc].
Qed.

Lemma truncate_fold_fresh (items acc : list (string * PyValue)) :
  NoDup (map fst items) ->
  (forall k, In k (map fst items) -> ~ In k (map fst acc)) ->
  fold_left truncate_step items acc
  = acc ++ map (fun kv => (fst kv, truncate_value (snd kv))) items.
Proof.
  revert acc. induction items as [|[k x] items IH]; simpl; intros acc Hnd Hfresh.
  - now rewrite app_nil_r.
  - apply NoDup_cons in Hnd as [Hk Hnd].
    rewrite dict_set_fresh by (apply Hfresh; now left).
    rewrite IH; [now rewrite <- app_assoc | exact Hnd |].
    intros k' Hk' Hin. rewrite map_app, in_app_iff in Hin. destruct Hin as [Hin|[<-|[]]].
    + apply (Hfresh k'); [now right | exact Hin].
    + apply Hk. apply list_elem_of_In. exact Hk'.
Qed.

Lemma truncate_dict_values (d : list (string * PyValue)) :
  Forall field_bounded (map snd (truncate_dict d)).
Proof. apply (truncate_fold_bounded d []). constructor. Qed.

Lemma truncate_dict_unique_keys (d : list (string * PyValue)) :
  NoDup (map fst d) ->
  truncate_dict d = map (fun kv => (fst kv, truncate_value (snd kv))) d.
Proof.
  intros Hnd. apply (truncate_fold_fresh d [] Hnd). intros k _ [].
Qed.

Lemma truncate_list_length (l : list PyValue) : length (truncate_list l) <= 6.
Proof.
  unfold truncate_list.
  assert (length (map truncate_item (take 5 l)) <= 5) as H.
  { rewrite length_map, length_take. lia. }
  destruct (5 <? Z.of_nat (length l))%Z; [rewrite length_app; simpl|]; lia.
Qed.

Lemma truncate_scalar_shape (s : string) :
  exists t, (if (scalar_cap <? len s)%Z then PyStr (str_take 2000 s +:+ "...") else PyStr s)
            = PyStr t /\ (len t <= 2003)%Z.
Proof.
  unfold scalar_cap.
  destruct (Z.ltb_spec 2000 (len s)) as [Hlt|Hle]; eexists; (split; [reflexivity|]).
  - rewrite len_app. pose proof (len_str_take 2000 s). change (len "...") with 3%Z. lia.
  - lia.
Qed.


Lemma serialized_within (result : PyValue) :
  within_int_limit result = true -> serialized result = Returned (result_str result).
Proof. unfold serialized. now intros ->. Qed.

(** A result that cannot be printed is not delivered at all. *)
Lemma unprintable_result_raises tool_name timestamp faults fs returned :
  within_int_limit (normalize json_loads returned) = false ->
  wrapped_func json_loads tool_name timestamp faults fs returned
  = (Raised "ValueError: Exceeds the limit (4300 digits) for integer string conversion", fs).
Proof. intros H. unfold wrapped_func, serialized. now rewrite H. Qed.

Lemma wrapped_func_printable tool_name timestamp faults fs returned v :
  fst (wrapped_func json_loads tool_name timestamp faults fs returned) = Returned v ->
  within_int_limit (normalize json_loads returned) = true.
Proof.
  destruct (within_int_limit (normalize json_loads returned)) eqn:H; [reflexivity|].
  now rewrite (unprintable_result_raises _ _ _ _ _ H).
Qed.

(** What [wrapped_func] does on a printable result over the cap. *)
Lemma wrapped_func_spools tool_name timestamp faults fs returned :
  within_int_limit (normalize json_loads returned) = true ->
  (cap < len (result_str (normalize json_loads returned)))%Z ->
  wrapped_func json_loads tool_name timestamp faults fs returned
  = match spool faults fs (spool_filename tool_name timestamp)
                (normalize json_loads returned) with
    | (Raised e, fs') => (Raised e, fs')
    | (Returned _, fs') => (Returned (truncate (normalize json_loads returned)), fs')
    end.
Proof.
  intros Hprint Hbig. unfold wrapped_func. rewrite (serialized_within _ Hprint).
  apply Z.ltb_lt in Hbig. now rewrite Hbig.
Qed.

(** What is delivered of a result over the cap is its truncation. *)
Lemma wrapped_func_delivers tool_name timestamp faults fs returned v :
  (cap < len (result_str (normalize json_loads returned)))%Z ->
  fst (wrapped_func json_loads tool_name timestamp faults fs returned) = Returned v ->
  v = truncate (normalize json_loads returned).
Proof.
  intros Hbig Hret.
  pose proof (wrapped_func_printable _ _ _ _ _ _ Hret) as Hprint.
  rewrite (wrapped_func_spools _ _ _ _ _ Hprint Hbig) in Hret.
  unfold spool in Hret. revert Hret. fault_cases faults; simpl; congruence.
Qed.

Lemma wrapped_func_within_cap tool_name timestamp faults fs returned text :
  serialized (normalize json_loads returned) = Returned text ->
  (len text <= cap)%Z ->
  wrapped_func json_loads tool_name timestamp faults fs returned
  = (Returned (normalize json_loads returned), fs).
Proof.
  intros Hser Hsmall. unfold wrapped_func. rewrite Hser.
  destruct (Z.ltb_spec cap (len text)); [lia | reflexivity].
Qed.

(** The items, the length and the marker of a truncated list. *)
Lemma truncate_list_shape (l : list PyValue) :
  (forall i x, i < 5 -> l !! i = Some x ->
     truncate_list l !! i = Some (match x with
                                  | PyDict d => PyDict (truncate_dict d)
                                  | _ => x
                                  end))
  /\ (length l <= 5 -> length (truncate_list l) = length l)
  /\ (5 < length l ->
      length (truncate_list l) = 6
      /\ truncate_list l !! 5
         = Some (PyStr ("... and " +:+ str_of_Z (Z.of_nat (length l) - 5) +:+ " more items"))).
Proof.
  assert (forall i x, i < 5 -> l !! i = Some x ->
            map truncate_item (take 5 l) !! i
            = Some (match x with PyDict d => PyDict (truncate_dict d) | _ => x end)) as Hitems.
  { intros i x Hi Hx.
    change (map truncate_item (take 5 l)) with (truncate_item <$> take 5 l).
    rewrite list_lookup_fmap, lookup_take_lt by exact Hi. rewrite Hx. simpl.
    now destruct x. }
  assert (length (map truncate_item (take 5 l)) = Nat.min 5 (length l)) as Hlen
    by (rewrite length_map; apply length_take).
  unfold truncate_list. split; [|split].
  - intros i x Hi Hx. pose proof (lookup_lt_Some _ _ _ Hx) as Hlt.
    destruct (5 <? Z.of_nat (length l))%Z; [|now apply Hitems].
    rewrite lookup_app_l by lia. now apply Hitems.
  - intros Hshort. destruct (Z.ltb_spec 5 (Z.of_nat (length l))); [lia|]. lia.
  - intros Hlong. destruct (Z.ltb_spec 5 (Z.of_nat (length l))); [|lia].
    split; [rewrite length_app; simpl; lia|].
    rewrite lookup_app_r by lia. now replace (5 - _) with 0 by lia.
Qed.

End ArbiterFacts.




(** The same for a [(data, metadata)] tuple: only [data] is delivered. *)
Example tuple_result_is_unwrapped :
  fst (wrapped_func json_loads_sample "soql_query" "20250101_120000" no_faults empty_fs
         (Tuple (PyInt 1) [PyNone]))
  = Returned (PyInt 1).
Proof. vm_compute. reflexivity. Qed.

(** An integer of 4301 digits is small by the cap, yet nothing is
    delivered: serialising it for the size check raises. *)
Example long_integer_is_not_delivered :
  wrapped_func json_loads_sample "soql_query" "20250101_120000" no_faults empty_fs
    (Plain (PyInt (10 ^ 4300)))
  = (Raised "ValueError: Exceeds the limit (4300 digits) for integer string conversion",
     empty_fs).
Proof. apply unprintable_result_raises. vm_compute. reflexivity. Qed.

(** C3 (as amended): an oversized result that is delivered is bounded field
    by field.  Of a mapping every top-level string value longer than 200
    characters is cut to 200 characters plus ["..."], so string values have
    at most 203 characters, all keys stay in order and other values are
    kept as they are.  Of a sequence the first five items are kept,
    mappings among them cut in the same way and other items as they are,
    followed, when there were more than five, by the one item
    ["... and N more items"].  Anything else becomes the first 2000
    characters of its text plus ["..."]. *)
Theorem oversized_payload_shape
    (json_loads : string -> option PyValue) (tool_name timestamp : string)
    (faults : Faults) (fs : FileSystem) (returned : ToolReturn)
    (data result v : PyValue) :
  data = match returned with
         | Tuple first _ => first
         | Plain x => x
         end ->
  result = match data with
           | PyStr s => match json_loads s with
                        | Some parsed => parsed
                        | None => data
                        end
           | _ => data
           end ->
  (10000 < len (result_str result))%Z ->
  fst (wrapped_func json_loads tool_name timestamp faults fs returned) = Returned v ->
  match result with
  | PyDict d =>
      exists d', v = PyDict d'
        /\ (forall k s, In (k, PyStr s) d' -> (len s <= 203)%Z)
        /\ (NoDup (map fst d) ->
            map fst d' = map fst d
            /\ (forall k s, In (k, PyStr s) d -> (200 < len s)%Z ->
                            In (k, PyStr (str_take 200 s +:+ "...")) d')
            /\ (forall k x, In (k, x) d ->
                            match x with PyStr s => (len s <= 200)%Z | _ => True end ->
                            In (k, x) d'))
  | PyList l =>
      exists l', v = PyList l'
        /\ (forall i x, i < 5 -> l !! i = Some x ->
              exists x', l' !! i = Some x'
                /\ match x with
                   | PyDict d =>
                       exists d', x' = PyDict d'
                         /\ (forall k s, In (k, PyStr s) d' -> (len s <= 203)%Z)
                         /\ (NoDup (map fst d) ->
                             d' = map (fun kv =>
                                         (fst kv,
                                          match snd kv with
                                          | PyStr s =>
                                              if (200 <? len s)%Z
                                              then PyStr (str_take 200 s +:+ "...")
                                              else snd kv
                                          | other => other
                                          end)) d)
                   | _ => x' = x
                   end)
        /\ (length l <= 5 -> length l' = length l)
        /\ (5 < length l ->
            length l' = 6
            /\ l' !! 5 = Some (PyStr ("... and " +:+ str_of_Z (Z.of_nat (length l) - 5)
                                      +:+ " more items")))
  | _ =>
      v = PyStr (str_take 2000 (result_str result) +:+ "...")
      /\ (len (str_take 2000 (result_str result) +:+ "...") <= 2003)%Z
  end.
Proof.
  intros -> -> Hbig Hret.
  change (match match returned with Tuple first _ => first | Plain x => x end with
          | PyStr s => match json_loads s with
                       | Some parsed => parsed
                       | None => match returned with Tuple first _ => first | Plain x => x end
                       end
          | _ => match returned with Tuple first _ => first | Plain x => x end
          end) with (normalize json_loads returned) in *.
  pose proof (wrapped_func_delivers json_loads _ _ _ _ _ _ Hbig Hret) as ->.
  assert (forall r, (10000 < len (result_str r))%Z ->
            (if (scalar_cap <? len (result_str r))%Z
             then PyStr (str_take 2000 (result_str r) +:+ "...")
             else PyStr (result_str r))
            = PyStr (str_take 2000 (result_str r) +:+ "...")
            /\ (len (str_take 2000 (result_str r) +:+ "...") <= 2003)%Z) as Hscalar.
  { intros r Hr. unfold scalar_cap.
    destruct (Z.ltb_spec 2000 (len (result_str r))) as [_|Hle]; [|lia].
    split; [reflexivity|]. rewrite len_app.
    pose proof (len_str_take 2000 (result_str r)). change (len "...") with 3%Z. lia. }
  destruct (normalize json_loads returned) as [|b|z|s|l|d|] eqn:Hres;
    try (exact (Hscalar _ Hbig)).
  - exists (truncate_list l). split; [reflexivity|].
    destruct (truncate_list_shape l) as (Hitems & Hshort & Hlong).
    split; [|split; assumption].
    intros i x Hi Hx. eexists. split; [exact (Hitems i x Hi Hx)|].
    destruct x as [| | | | |dx|]; try reflexivity.
    exists (truncate_dict dx). split; [reflexivity|]. split.
    + intros k s0 Hin. pose proof (truncate_dict_values dx) as Hall.
      rewrite Forall_forall in Hall.
      apply (Hall (PyStr s0)). apply list_elem_of_In, in_map_iff. exists (k, PyStr s0).
      now split.
    + intros Hnd. rewrite (truncate_dict_unique_keys dx Hnd). apply map_ext.
      intros [k x]. simpl. f_equal. now destruct x.
  - exists (truncate_dict d). split; [reflexivity|]. split.
    + intros k s Hin.
      pose proof (truncate_dict_values d) as Hall.
      rewrite Forall_forall in Hall.
      apply (Hall (PyStr s)). apply list_elem_of_In, in_map_iff. exists (k, PyStr s). now split.
    + intros Hnd. rewrite (truncate_dict_unique_keys d Hnd). split; [|split].
      * rewrite map_map. reflexivity.
      * intros k s Hin Hlong. apply in_map_iff. exists (k, PyStr s). split; [|exact Hin].
        simpl. unfold field_cap. apply Z.ltb_lt in Hlong. now rewrite Hlong.
      * intros k x Hin Hshort. apply in_map_iff. exists (k, x). split; [|exact Hin].
        simpl. f_equal. destruct x as [| | |s| | |]; try reflexivity.
        simpl. unfold field_cap. destruct (Z.ltb_spec 200 (len s)); [lia | reflexivity].
Qed.

Lemma oversized_payload_shape_witness :
  (exists d', fst (wrapped_func json_loads_sample "soql_query" "20250101_120000" no_faults
                     empty_fs (Plain big_dict)) = Returned (PyDict d')
     /\ (forall k s, In (k, PyStr s) d' -> (len s <= 203)%Z))
  /\ (exists l', fst (wrapped_func json_loads_sample "soql_query" "20250101_120000"
                        no_faults empty_fs (Plain big_list)) = Returned (PyList l')
        /\ length l' = 6
        /\ l' !! 5 = Some (PyStr "... and 1996 more items"))
  /\ fst (wrapped_func json_loads_sample "soql_query" "20250101_120000" no_faults
            empty_fs (Plain (PyStr (spaces (Z.to_nat 10001)))))
     = Returned (PyStr (spaces 2000 +:+ "...")).
Proof.
  split; [|split].
  - assert (fst (wrapped_func json_loads_sample "soql_query" "20250101_120000" no_faults
                   empty_fs (Plain big_dict)) = Returned (truncate big_dict))
      as Hret by (vm_compute; reflexivity).
    pose proof (oversized_payload_shape json_loads_sample "soql_query" "20250101_120000"
                  no_faults empty_fs (Plain big_dict) big_dict big_dict (truncate big_dict)
                  eq_refl eq_refl ltac:(vm_compute; reflexivity) Hret) as H.
    cbv beta iota delta [big_dict] in H.
    destruct H as (d' & Hv & Hbound & _).
    exists d'. split; [|exact Hbound]. rewrite <- Hv. exact Hret.
  - assert (fst (wrapped_func json_loads_sample "soql_query" "20250101_120000" no_faults
                   empty_fs (Plain big_list)) = Returned (truncate big_list))
      as Hret by (vm_compute; reflexivity).
    pose proof (oversized_payload_shape json_loads_sample "soql_query" "20250101_120000"
                  no_faults empty_fs (Plain big_list) big_list big_list (truncate big_list)
                  eq_refl eq_refl ltac:(vm_compute; reflexivity) Hret) as H.
    cbv beta iota delta [big_list] in H.
    destruct H as (l' & Hv & _ & _ & Hlong).
    exists l'. split; [rewrite <- Hv; exact Hret|].
    destruct Hlong as [Hlen Hmark]; [rewrite repeat_length; lia|].
    split; [exact Hlen|]. rewrite Hmark. f_equal.
  - assert (fst (wrapped_func json_loads_sample "soql_query" "20250101_120000" no_faults
                   empty_fs (Plain (PyStr (spaces (Z.to_nat 10001)))))
            = Returned (truncate (PyStr (spaces (Z.to_nat 10001)))))
      as Hret by (vm_compute; reflexivity).
    pose proof (oversized_payload_shape json_loads_sample "soql_query" "20250101_120000"
                  no_faults empty_fs (Plain (PyStr (spaces (Z.to_nat 10001))))
                  (PyStr (spaces (Z.to_nat 10001))) (PyStr (spaces (Z.to_nat 10001)))
                  (truncate (PyStr (spaces (Z.to_nat 10001))))
                  eq_refl ltac:(vm_compute; reflexivity) ltac:(vm_compute; reflexivity) Hret)
      as [Hv _].
    rewrite Hret, Hv.
    assert (str_take 2000 (result_str (PyStr (spaces (Z.to_nat 10001)))) = spaces 2000)
      as -> by (vm_compute; reflexivity).
    reflexivity.
Defined.

(** On [big_dict] the long text field is cut and the nested list is not. *)
Example big_dict_delivered :
  fst (wrapped_func json_loads_sample "soql_query" "20250101_120000" no_faults empty_fs
         (Plain big_dict))
  = Returned (PyDict [("Id", PyInt 7); ("Description", PyStr (spaces 200 +:+ "..."));
                      ("Tags", PyList [PyStr (spaces 300)])]).
Proof. vm_compute. reflexivity. Qed.

(** A list holding one long string is delivered whole whatever its size:
    only the first five items are looked at, and only mappings among them
    are cut. *)
Lemma long_item_delivered (n : nat) :
  fst (wrapped_func json_loads_sample "soql_query" "20250101_120000" no_faults empty_fs
         (Plain (PyList [PyStr (spaces n)])))
  = Returned (PyList [PyStr (spaces n)]).
Proof.
  unfold wrapped_func.
  change (normalize json_loads_sample (Plain (PyList [PyStr (spaces n)])))
    with (PyList [PyStr (spaces n)]).
  change (serialized (PyList [PyStr (spaces n)]))
    with (Returned (A := string) (result_str (PyList [PyStr (spaces n)]))).
  cbv beta iota.
  destruct (cap <? len (result_str (PyList [PyStr (spaces n)])))%Z; reflexivity.
Qed.

Lemma long_item_size (n : nat) :
  payload_size (PyList [PyStr (spaces n)]) = (Z.of_nat n + 4)%Z.
Proof.
  unfold payload_size, result_str, json_dumps, join, map, json_string.
  rewrite json_escape_spaces. unfold len.
  rewrite !str_length_app, spaces_length. simpl. lia.
Qed.

(** C3 as stated fails: no fixed overhead bounds the delivered payload. *)
Lemma delivered_size_has_no_bound :
  ~ (exists overhead : Z,
       forall (returned : ToolReturn) (v : PyValue),
         fst (wrapped_func json_loads_sample "soql_query" "20250101_120000" no_faults
                empty_fs returned) = Returned v ->
         (payload_size v <= cap + overhead)%Z).
Proof.
  intros [overhead Hbound].
  pose (n := Z.to_nat (cap + Z.max overhead 0)).
  specialize (Hbound (Plain (PyList [PyStr (spaces n)])) _ (long_item_delivered n)).
  rewrite long_item_size in Hbound. unfold cap in *. lia.
Qed.

(** At a concrete size: a 30,000-character item comes back in full. *)
Example delivered_size_30004 :
  exists v, fst (wrapped_func json_loads_sample "soql_query" "20250101_120000" no_faults
                   empty_fs (Plain (PyList [PyStr (spaces (Z.to_nat 30000))]))) = Returned v
            /\ payload_size v = 30004%Z.
Proof. eexists. split; [apply long_item_delivered | vm_compute; reflexivity]. Qed.




(** C9: whenever the wrapper delivers a payload, the payload is decided by
    what the tool returned alone: two calls on the same returned value
    deliver the same payload whatever the tool names and timestamps the
    spool file is named from, whatever the file systems hold and whichever
    file operations were retried.  The spool path reaches the file system
    only. *)
Theorem payload_independent_of_spool_path
    (json_loads : string -> option PyValue)
    (tool_name1 timestamp1 tool_name2 timestamp2 : string)
    (faults1 faults2 : Faults) (fs1 fs2 : FileSystem) (returned : ToolReturn)
    (v1 v2 : PyValue) :
  fst (wrapped_func json_loads tool_name1 timestamp1 faults1 fs1 returned) = Returned v1 ->
  fst (wrapped_func json_loads tool_name2 timestamp2 faults2 fs2 returned) = Returned v2 ->
  v1 = v2.
Proof.
  intros H1 H2.
  pose proof (wrapped_func_printable json_loads _ _ _ _ _ _ H1) as Hprint.
  destruct (Z.ltb_spec cap (len (result_str (normalize json_loads returned)))) as [Hbig|Hsmall].
  - rewrite (wrapped_func_delivers json_loads _ _ _ _ _ _ Hbig H1).
    now rewrite (wrapped_func_delivers json_loads _ _ _ _ _ _ Hbig H2).
  - rewrite (wrapped_func_within_cap json_loads _ _ _ _ _ _ (serialized_within _ Hprint)
               Hsmall) in H1.
    rewrite (wrapped_func_within_cap json_loads _ _ _ _ _ _ (serialized_within _ Hprint)
               Hsmall) in H2.
    simpl in H1, H2. congruence.
Qed.

Lemma payload_independent_of_spool_path_witness :
  fst (wrapped_func json_loads_sample "soql_query" "20250101_120000" no_faults empty_fs
         (Plain big_list))
  = fst (wrapped_func json_loads_sample "describe_object" "20251231_235959" retried_write
           {| dirs := {[ "mcp_output" ]};
              files := {[ "mcp_output/describe_object_20251231_235959.json" := "old" ]} |}
           (Plain big_list)).
Proof.
  assert (fst (wrapped_func json_loads_sample "soql_query" "20250101_120000" no_faults
                 empty_fs (Plain big_list)) = Returned (truncate big_list))
    as H1 by (vm_compute; reflexivity).
  assert (fst (wrapped_func json_loads_sample "describe_object" "20251231_235959"
                 retried_write
                 {| dirs := {[ "mcp_output" ]};
                    files := {[ "mcp_output/describe_object_20251231_235959.json" := "old" ]} |}
                 (Plain big_list)) = Returned (truncate big_list))
    as H2 by (vm_compute; reflexivity).
  rewrite H1, H2. apply (f_equal Returned).
  exact (payload_independent_of_spool_path json_loads_sample _ _ _ _ _ _ _ _ _ _ _ H1 H2).
Defined.

(** The spool file itself does carry the name: it is the one file written. *)
Example spool_file_is_named :
  let fs := snd (wrapped_func json_loads_sample "soql_query" "20250101_120000" no_faults
                   empty_fs (Plain (PyList (repeat PyNone 2001)))) in
  is_Some (files fs !! "mcp_output/soql_query_20250101_120000.json")
  /\ files fs !! "mcp_output/other_20250101_120000.json" = None.
Proof. split; vm_compute; eauto. Qed.

(** ** The tool composer *)

Section ComposerFacts.

Context {R : Type}.

Lemma wrapped_call_forces_headless (original : option (Callable R)) (headless_val : bool)
    (args : list PyValue) (kwargs : Kwargs) :
  create_wrapped_browser_tool original headless_val args kwargs
  = call original args (<["headless" := PyBool headless_val]> kwargs).
Proof. reflexivity. Qed.

Lemma forced_kwargs_agree (headless_val : bool) (kwargs kwargs' : Kwargs) :
  delete "headless" kwargs' = delete "headless" kwargs ->
  <["headless" := PyBool headless_val]> kwargs'
  = (<["headless" := PyBool headless_val]> kwargs : Kwargs).
Proof.
  unfold Kwargs in *. intros Hsame. apply map_eq. intros key.
  destruct (decide (key = "headless")) as [->|Hne].
  - now rewrite !lookup_insert_eq.
  - rewrite !lookup_insert_ne by congruence.
    rewrite <- (lookup_delete_ne kwargs' "headless" key) by congruence.
    rewrite <- (lookup_delete_ne kwargs "headless" key) by congruence.
    now rewrite Hsame.
Qed.

End ComposerFacts.

(** C8: a tool named as one of the three browser tools is replaced by a
    tool of the same name whose description is the original description
    followed by the browser-mode annotation, and whose coroutine calls the
    original callable with [headless] set to the session's flag: the value
    the caller passed for [headless], or its absence, changes nothing. *)
Theorem browser_tool_mode_forced
    {R : Type} (headless : bool) (tool : Tool R) :
  In (name tool) ["browser_research"; "browser_research_multiple";
                  "browser_interactive_research"] ->
  let wrapped_tool := wrap_custom_tool headless tool in
  name wrapped_tool = name tool
  /\ description wrapped_tool
     = description tool +:+ (if headless then " (Browser mode: headless/invisible)"
                             else " (Browser mode: visible/slow)")
  /\ exists wrapped_func,
       coroutine wrapped_tool = Has (Some wrapped_func)
       /\ forall (args : list PyValue) (kwargs : Kwargs),
            wrapped_func args kwargs
            = call (original_func tool) args (<["headless" := PyBool headless]> kwargs)
            /\ (<["headless" := PyBool headless]> kwargs : Kwargs) !! "headless"
               = Some (PyBool headless)
            /\ forall kwargs' : Kwargs,
                 delete "headless" kwargs' = delete "headless" kwargs ->
                 wrapped_func args kwargs' = wrapped_func args kwargs.
Proof.
  intros Hname wrapped_tool.
  assert (is_browser_tool tool = true) as Hb.
  { unfold is_browser_tool, browser_tool_names. apply existsb_exists.
    exists (name tool). split; [exact Hname | apply String.eqb_refl]. }
  subst wrapped_tool. unfold wrap_custom_tool. rewrite Hb. simpl.
  split; [reflexivity|]. split; [now destruct headless|].
  eexists. split; [reflexivity|].
  intros args kwargs. split; [reflexivity|].
  split; [unfold Kwargs in *; apply lookup_insert_eq|].
  intros kwargs' Hsame. rewrite !wrapped_call_forces_headless.
  now rewrite (forced_kwargs_agree headless kwargs kwargs' Hsame).
Qed.

Lemma browser_tool_mode_forced_witness :
  In (name browser_research) ["browser_research"; "browser_research_multiple";
                              "browser_interactive_research"]
  /\ description (wrap_custom_tool false browser_research)
     = description browser_research +:+ " (Browser mode: visible/slow)".
Proof.
  assert (In (name browser_research) ["browser_research"; "browser_research_multiple";
                                      "browser_interactive_research"]) as Hin
    by (simpl; tauto).
  split; [exact Hin|].
  exact (proj1 (proj2 (browser_tool_mode_forced false browser_research Hin))).
Defined.

(** The caller asks for a headless browser, the session is in visible mode:
    the original coroutine is called with [headless=False]. *)
Example caller_headless_overridden :
  match coroutine (wrap_custom_tool false browser_research) with
  | Has (Some wrapped_func) =>
      wrapped_func [] {[ "url" := PyStr "https://example.org"; "headless" := PyBool true ]}
  | _ => Raised "no coroutine"
  end = Returned (PyBool false).
Proof. vm_compute. reflexivity. Qed.

(** Other tools are passed on as they are. *)
Lemma other_tools_untouched {R : Type} (headless : bool) (tool : Tool R) :
  is_browser_tool tool = false -> wrap_custom_tool headless tool = tool.
Proof. intros H. unfold wrap_custom_tool. now rewrite H. Qed.

(** ** The session event mapper *)

Section MapperFacts.

Implicit Types (st : GenState) (out : list Emission) (tc : ToolCall).

Lemma surfaced_calls_app out1 out2 :
  surfaced_calls (out1 ++ out2) = surfaced_calls out1 ++ surfaced_calls out2.
Proof. unfold surfaced_calls. apply omap_app. Qed.

Lemma step_ok_nil st : step_ok st st [].
Proof.
  repeat split; try constructor; try done.
Qed.

Lemma step_ok_app st st1 st2 out1 out2 :
  step_ok st st1 out1 -> step_ok st1 st2 out2 -> step_ok st st2 (out1 ++ out2).
Proof.
  intros (Hsub1 & Hnt1 & Hnd1 & Hkeys1) (Hsub2 & Hnt2 & Hnd2 & Hkeys2).
  split; [set_solver|]. split; [now apply Forall_app|].
  rewrite surfaced_calls_app. split.
  - rewrite map_app. apply NoDup_app. split; [exact Hnd1|]. split; [|exact Hnd2].
    intros k Hk1 Hk2.
    apply list_elem_of_In, in_map_iff in Hk1 as (tc1 & <- & Hin1).
    apply list_elem_of_In, in_map_iff in Hk2 as (tc2 & Heq & Hin2).
    destruct (Hkeys1 tc1 Hin1) as [_ Hseen]. destruct (Hkeys2 tc2 Hin2) as [Hnew _].
    rewrite Heq in Hnew. contradiction.
  - intros tc Hin. apply in_app_iff in Hin as [Hin|Hin].
    + destruct (Hkeys1 tc Hin) as [Hnew Hseen]. split; [exact Hnew | set_solver].
    + destruct (Hkeys2 tc Hin) as [Hnew Hseen]. split; [set_solver | exact Hseen].
Qed.

Lemma step_ok_token st content :
  step_ok st {| final_response := content; step_count := step_count st;
                seen_tool_calls := seen_tool_calls st |}
          [EmitToken content].
Proof.
  repeat split; simpl; try done.
  - repeat constructor.
  - constructor.
Qed.

Lemma surface_calls_ok calls : forall st,
  step_ok st (fst (surface_calls st calls)) (snd (surface_calls st calls)).
Proof.
  induction calls as [|tc calls IH]; intros st; simpl; [apply step_ok_nil|].
  case_bool_decide as Hseen; [apply IH|].
  set (st1 := {| final_response := final_response st; step_count := S (step_count st);
                 seen_tool_calls := {[tool_call_id tc]} ∪ seen_tool_calls st |}).
  specialize (IH st1). destruct (surface_calls st1 calls) as [st2 out]. simpl in *.
  apply (step_ok_app st st1 st2 [EmitThinking tc] out); [|exact IH].
  repeat split; simpl.
  - set_solver.
  - repeat constructor.
  - apply NoDup_singleton.
  - destruct H as [<-|[]]. exact Hseen.
  - destruct H as [<-|[]]. set_solver.
Qed.

Lemma process_chunk_ok st chunk :
  step_ok st (fst (process_chunk st chunk)) (snd (process_chunk st chunk)).
Proof.
  unfold process_chunk.
  destruct chunk as [messages|]; [|apply step_ok_nil].
  destruct (last messages) as [last_message|]; [|apply step_ok_nil].
  destruct (_ && is_nonempty _); [apply surface_calls_ok|].
  destruct (msg_content last_message) as [raw|]; [|apply step_ok_nil].
  destruct (_ && negb (String.eqb raw "")); [|apply step_ok_nil].
  destruct (_ && _); [apply step_ok_token | apply step_ok_nil].
Qed.

Lemma run_chunks_ok cs : forall st,
  step_ok st (fst (run_chunks st cs)) (snd (run_chunks st cs)).
Proof.
  induction cs as [|chunk cs IH]; intros st; simpl; [apply step_ok_nil|].
  pose proof (process_chunk_ok st chunk) as H1.
  destruct (process_chunk st chunk) as [st1 out1].
  specialize (IH st1). destruct (run_chunks st1 cs) as [st2 out2]. simpl in *.
  exact (step_ok_app _ _ _ _ _ H1 IH).
Qed.

(** The call identity decides the dedup key. *)
Lemma identity_decides_key tc tc' :
  call_identity tc = call_identity tc' -> tool_call_id tc = tool_call_id tc'.
Proof.
  unfold call_identity, tool_call_id, call_id_text. intros [= Hn Hi]. now rewrite Hn, Hi.
Qed.

Lemma no_thinking_for ident out :
  (forall tc, In tc (surfaced_calls out) -> call_identity tc <> ident) ->
  List.filter (thinking_of ident) out = [].
Proof.
  induction out as [|e out IH]; intros Hnone; [reflexivity|].
  simpl. destruct e as [tc| | |]; simpl in *; try (apply IH; exact Hnone).
  rewrite bool_decide_eq_false_2 by (apply Hnone; now left).
  apply IH. intros tc' Hin. apply Hnone. now right.
Qed.

Lemma distinct_keys_count ident out :
  NoDup (map tool_call_id (surfaced_calls out)) -> count_thinking ident out <= 1.
Proof.
  unfold count_thinking.
  induction out as [|e out IH]; intros Hnd; simpl; [lia|].
  destruct e as [tc| | |]; simpl in *; try (apply IH; exact Hnd).
  apply NoDup_cons in Hnd as [Hfresh Hnd].
  case_bool_decide as Hid; [|apply IH; exact Hnd].
  rewrite no_thinking_for; [simpl; lia|].
  intros tc' Hin Heq. apply Hfresh.
  apply list_elem_of_In, in_map_iff. exists tc'. split; [|exact Hin].
  apply identity_decides_key. congruence.
Qed.

(** Erasing the calls from a trace leaves one thinking event per
    surfaced call. *)
Lemma thinking_events_of_trace out :
  List.filter (fun ev => String.eqb (ev_type ev) "thinking") (map event_of out)
  = map (fun tc => thinking_event (call_name tc)) (surfaced_calls out).
Proof.
  induction out as [|e out IH]; [reflexivity|].
  destruct e as [tc| | |]; simpl; now rewrite IH.
Qed.

(** The emissions before the terminal one, and the state they leave. *)
Lemma generate_trace_split src :
  generate_trace src
  = snd (run_chunks initial_state (chunks src))
    ++ [match failure src with
        | Some e => EmitError e
        | None =>
            if negb (String.eqb (final_response (fst (run_chunks initial_state (chunks src)))) "")
            then EmitFinal (final_response (fst (run_chunks initial_state (chunks src))))
            else EmitFinal "Task completed."
        end].
Proof.
  unfold generate_trace. destruct (run_chunks initial_state (chunks src)) as [st out].
  simpl. destruct (failure src); [reflexivity|]. now destruct (negb _).
Qed.

End MapperFacts.

(** C5: over the whole event sequence of a turn, at most one thinking event
    is emitted for any call identity (tool name, call id), however often
    and wherever the call shows up in the snapshots: the thinking events
    of the stream are those of the surfaced calls, one each and in order,
    and no two surfaced calls share an identity. *)
Theorem thinking_at_most_once (src : Source) (ident : string * option (option string)) :
  count_thinking ident (generate_trace src) <= 1
  /\ NoDup (map call_identity (surfaced_calls (generate_trace src)))
  /\ List.filter (fun ev => String.eqb (ev_type ev) "thinking") (generate_events src)
     = map (fun tc => thinking_event (call_name tc)) (surfaced_calls (generate_trace src)).
Proof.
  assert (NoDup (map tool_call_id (surfaced_calls (generate_trace src)))) as Hkeys.
  { pose proof (run_chunks_ok (chunks src) initial_state) as (_ & _ & Hnd & _).
    rewrite generate_trace_split, surfaced_calls_app, map_app.
    destruct (failure src); simpl; [now rewrite app_nil_r|].
    destruct (negb _); simpl; now rewrite app_nil_r. }
  split; [now apply distinct_keys_count|]. split.
  - apply (NoDup_fmap_1 (fun ident => fst ident +:+ "_" +:+ id_text (snd ident))).
    change (NoDup (map (fun ident => fst ident +:+ "_" +:+ id_text (snd ident))
                       (map call_identity (surfaced_calls (generate_trace src))))).
    rewrite map_map. exact Hkeys.
  - unfold generate_events. apply thinking_events_of_trace.
Qed.

(** The call of [repeated_call_source] is in three snapshots, two of them
    not adjacent, and surfaces once. *)
Example repeated_call_once :
  generate_events repeated_call_source
  = [thinking_event "duckduckgo_search";
     {| ev_type := "token"; ev_content := "partial" |};
     {| ev_type := "token"; ev_content := "final answer" |};
     {| ev_type := "final"; ev_content := "final answer" |}].
Proof. vm_compute. reflexivity. Qed.

(** Two calls with different identities whose keys coincide: the second
    one is not surfaced. *)
Example colliding_keys_surface_once :
  let first := {| tc_name := Some "browser"; tc_id := Some (Some "research_1");
                  tc_args := None |} in
  let second := {| tc_name := Some "browser_research"; tc_id := Some (Some "1");
                   tc_args := None |} in
  call_identity first <> call_identity second
  /\ tool_call_id first = tool_call_id second
  /\ generate_events {| chunks := [Some [ai_tool_calls [first; second]]]; failure := None |}
     = [thinking_event "browser"; {| ev_type := "final"; ev_content := "Task completed." |}].
Proof. cbv zeta. split; [discriminate|]. split; vm_compute; reflexivity. Qed.

(** C6: the events of a finite source are some non-terminal events followed
    by exactly one terminal event, which is last: the error event carrying
    the failure when the source raised, a final event otherwise. *)
Theorem terminal_event_last_and_unique (src : Source) :
  exists (before : list Event) (terminal : Event),
    generate_events src = before ++ [terminal]
    /\ Forall (fun ev => ev_type ev <> "final" /\ ev_type ev <> "error") before
    /\ length (List.filter is_terminal (generate_events src)) = 1
    /\ match failure src with
       | Some e => terminal = {| ev_type := "error"; ev_content := e |}
       | None => ev_type terminal = "final"
       end.
Proof.
  pose proof (run_chunks_ok (chunks src) initial_state) as (_ & Hnt & _ & _).
  unfold generate_events. rewrite generate_trace_split, map_app.
  set (out := snd (run_chunks initial_state (chunks src))) in *.
  assert (Forall (fun ev => is_terminal ev = false) (map event_of out)) as Hpre.
  { apply Forall_forall. intros ev Hin.
    apply list_elem_of_In, in_map_iff in Hin as (e & <- & Hin).
    rewrite Forall_forall in Hnt. apply Hnt, list_elem_of_In, Hin. }
  eexists _, _. split; [reflexivity|]. split; [|split].
  - eapply Forall_impl; [exact Hpre|]. intros ev Hev. unfold is_terminal in Hev.
    apply orb_false_iff in Hev as [Hf He].
    apply String.eqb_neq in Hf, He. now split.
  - rewrite List.filter_app, length_app.
    assert (List.filter is_terminal (map event_of out) = []) as ->.
    { clear -Hpre. induction (map event_of out) as [|ev l IH]; [reflexivity|].
      apply Forall_cons in Hpre as [Hev Hl]. simpl. rewrite Hev. now apply IH. }
    destruct (failure src); [reflexivity|]. now destruct (negb _).
  - destruct (failure src); [reflexivity|]. now destruct (negb _).
Qed.

Example failing_source_events :
  generate_events failing_source
  = [{| ev_type := "token"; ev_content := "partial" |};
     {| ev_type := "error"; ev_content := "connection reset" |}].
Proof. vm_compute. reflexivity. Qed.

Section ThinkingFacts.

Implicit Types (st : GenState) (tc : ToolCall).



End ThinkingFacts.




(** ** The agent lifecycle manager *)

Section LifecycleFacts.

Variable env : Env.

Lemma truthy_spec (o : option string) :
  truthy o = true <-> exists s, o = Some s /\ s <> "".
Proof.
  destruct o as [s|]; simpl.
  - rewrite negb_true_iff, String.eqb_neq. split; [eauto|]. now intros (? & [= <-] & ?).
  - split; [discriminate | now intros (? & ? & ?)].
Qed.

Lemma rebuild_requested_spec (system_prompt model : option string) (headless : bool) :
  rebuild_requested system_prompt model headless = true
  <-> (exists s, system_prompt = Some s /\ s <> "")
      \/ (exists s, model = Some s /\ s <> "")
      \/ headless = false.
Proof.
  unfold rebuild_requested. rewrite !orb_true_iff, !truthy_spec.
  destruct headless; simpl; intuition discriminate.
Qed.

(** A successful [initialize_agent] stores and returns an agent numbered
    by the construction counter. *)
Lemma initialize_agent_fresh instructions enable_research model headless m :
  create_fails env (created m + (if mcp_enabled env then 1 else 0)) = false ->
  exists a m',
    initialize_agent env instructions enable_research model headless m = (Returned a, m')
    /\ agent m' = Some a
    /\ created m <= agent_id a < created m'
    /\ agent_headless a = headless
    /\ agent_model a = (if truthy model then default "" model else config_MODEL env)
    /\ agent_system_prompt a = default (default_instructions env headless) instructions.
Proof.
  intros Hok. unfold initialize_agent.
  destruct (mcp_enabled env); simpl in *.
  - replace (created m + 1) with (S (created m)) in Hok by lia. rewrite Hok.
    eexists _, _. split; [reflexivity|]. simpl.
    repeat split; try lia; now destruct instructions.
  - replace (created m + 0) with (created m) in Hok by lia. rewrite Hok.
    eexists _, _. split; [reflexivity|]. simpl.
    repeat split; try lia; now destruct instructions.
Qed.

Lemma initialize_agent_ok instructions enable_research model headless m :
  manager_ok m ->
  manager_ok (snd (initialize_agent env instructions enable_research model headless m)).
Proof.
  intros Hm. unfold initialize_agent, manager_ok in *.
  destruct (mcp_enabled env); simpl; destruct (create_fails env _); simpl; intros a Ha.
  - specialize (Hm a Ha). lia.
  - injection Ha as <-. simpl. lia.
  - specialize (Hm a Ha). lia.
  - injection Ha as <-. simpl. lia.
Qed.

Lemma get_agent_ok m : manager_ok m -> manager_ok (snd (get_agent env m)).
Proof.
  intros Hm. unfold get_agent. destruct (agent m); [exact Hm|].
  now apply initialize_agent_ok.
Qed.

(** Handling a request keeps the manager well formed. *)
Lemma request_agent_ok system_prompt model headless m :
  manager_ok m -> manager_ok (snd (request_agent env system_prompt model headless m)).
Proof.
  intros Hm. unfold request_agent. destruct (rebuild_requested _ _ _); [|now apply get_agent_ok].
  unfold reinitialize_agent.
  match goal with |- context [initialize_agent env ?i ?r ?mo ?h ?m0] =>
    pose proof (initialize_agent_ok i r mo h m0) as Hinit;
    destruct (initialize_agent env i r mo h m0) as [[a|e] m1] end; simpl in *.
  - apply get_agent_ok, Hinit. intros a' [=].
  - apply Hinit. intros a' [=].
Qed.

End LifecycleFacts.

Lemma new_manager_ok : manager_ok new_manager.
Proof. intros a [=]. Qed.

(** C1 (as amended): a request rebuilds exactly when it supplies a
    non-empty system prompt, a non-empty model, or [headless = False],
    whether or not these equal what the current agent was built with: the
    old agent is dropped and, the construction succeeding, a new agent built
    from the request's values is stored and returned.  A request that
    leaves all three at their defaults never rebuilds: it gets the stored
    agent, and the manager is unchanged. *)
Theorem rebuild_decided_by_request_alone
    (env : Env) (system_prompt model : option string) (headless : bool)
    (m : AgentManager) :
  manager_ok m ->
  (rebuild_requested system_prompt model headless = true
   <-> (exists s, system_prompt = Some s /\ s <> "")
       \/ (exists s, model = Some s /\ s <> "")
       \/ headless = false)
  /\ (rebuild_requested system_prompt model headless = true ->
      create_fails env (created m + (if mcp_enabled env then 1 else 0)) = false ->
      exists a m',
        request_agent env system_prompt model headless m = (Returned a, m')
        /\ agent m' = Some a
        /\ (forall old, agent m = Some old -> agent_id old <> agent_id a)
        /\ agent_headless a = headless
        /\ agent_model a = (if truthy model then default "" model else config_MODEL env)
        /\ agent_system_prompt a = default (default_instructions env headless) system_prompt)
  /\ (rebuild_requested system_prompt model headless = false ->
      forall a, agent m = Some a ->
                request_agent env system_prompt model headless m = (Returned a, m)).
Proof.
  intros Hm. split; [apply rebuild_requested_spec|]. split.
  - intros Hreq Hok. unfold request_agent, reinitialize_agent. rewrite Hreq.
    destruct (initialize_agent_fresh env system_prompt true model headless
                {| agent := None; mcp_client := None; created := created m |} Hok)
      as (a & m' & Hinit & Hstored & Hid & Hh & Hmod & Hsp).
    rewrite Hinit. unfold get_agent. rewrite Hstored.
    exists a, m'. split; [reflexivity|]. split; [exact Hstored|]. split; [|auto].
    intros old Hold. specialize (Hm old Hold). simpl in Hid. lia.
  - intros Hreq a Ha. unfold request_agent, get_agent. now rewrite Hreq, Ha.
Qed.

Lemma rebuild_decided_by_request_alone_witness :
  manager_ok (snd (chat_agent quiet_env request_model_x new_manager))
  /\ (exists a m',
        request_agent quiet_env None (Some "openai:gpt-4") true
          (snd (chat_agent quiet_env request_model_x new_manager)) = (Returned a, m')
        /\ agent_id a = 1 /\ agent_model a = "openai:gpt-4")
  /\ request_agent quiet_env None None true
       (snd (chat_agent quiet_env request_model_x new_manager))
     = (fst (chat_agent quiet_env request_model_x new_manager),
        snd (chat_agent quiet_env request_model_x new_manager)).
Proof.
  assert (manager_ok (snd (chat_agent quiet_env request_model_x new_manager))) as Hm
    by (apply request_agent_ok, new_manager_ok).
  split; [exact Hm|]. split.
  - destruct (proj1 (proj2 (rebuild_decided_by_request_alone quiet_env None
                              (Some "openai:gpt-4") true _ Hm)) eq_refl eq_refl)
      as (a & m' & Hrun & Hstored & _ & _ & Hmodel & _).
    exists a, m'. split; [exact Hrun|]. split; [|exact Hmodel].
    vm_compute in Hrun. now injection Hrun as <- _.
  - exact (proj2 (proj2 (rebuild_decided_by_request_alone quiet_env None None true _ Hm))
                 eq_refl _ eq_refl).
Defined.

(** C1 as stated fails: the same request sent twice is served by two
    different agents, the first being discarded by the second request. *)
Lemma identical_requests_rebuild :
  exists first second m1 m2,
    chat_agent quiet_env request_model_x new_manager = (Returned first, m1)
    /\ chat_agent quiet_env request_model_x m1 = (Returned second, m2)
    /\ agent_id first <> agent_id second.
Proof.
  eexists _, _, _, _. split; [reflexivity|]. split; [reflexivity|].
  vm_compute. discriminate.
Qed.

(** A request that names no model after one that did runs on the agent
    built for the named model. *)
Example plain_request_keeps_model :
  exists a m, chat_agent quiet_env request_plain
                (snd (chat_agent quiet_env request_model_x new_manager)) = (Returned a, m)
              /\ agent_model a = "openai:gpt-4".
Proof. eexists _, _. split; reflexivity. Qed.

(** ** Conversation history *)

Section HistoryFacts.

Implicit Types (l : list ChatMessage) (instruction : string).

Lemma limit_history_long l :
  10 < length l -> limit_history l = drop (length l - 10) l.
Proof.
  intros Hlong. unfold limit_history.
  destruct (Z.ltb_spec 10 (Z.of_nat (length l))); [reflexivity | lia].
Qed.

Lemma limit_history_short l : length l <= 10 -> limit_history l = l.
Proof.
  intros Hshort. unfold limit_history.
  destruct (Z.ltb_spec 10 (Z.of_nat (length l))); [lia | reflexivity].
Qed.

Lemma append_to_last_user_snoc instruction l m :
  append_to_last_user instruction (l ++ [m]) = l ++ [with_instruction instruction m].
Proof.
  induction l as [|x l IH]; [reflexivity|].
  change ((x :: l) ++ [m]) with (x :: (l ++ [m])).
  change ((x :: l) ++ [with_instruction instruction m])
    with (x :: (l ++ [with_instruction instruction m])).
  rewrite <- IH. simpl. destruct (l ++ [m]) eqn:Heq; [|reflexivity].
  now destruct l.
Qed.

(** All messages but the last are left alone; the last is extended when
    its role is "user". *)
Lemma append_to_last_user_spec instruction l :
  length (append_to_last_user instruction l) = length l
  /\ (forall i, S i < length l -> append_to_last_user instruction l !! i = l !! i)
  /\ last (append_to_last_user instruction l) = with_instruction instruction <$> last l.
Proof.
  destruct (decide (l = [])) as [->|Hne]; [repeat split; intros; simpl in *; lia|].
  destruct (proj2 (last_is_Some l) Hne) as [m Hm].
  apply last_Some in Hm as [l' ->].
  rewrite append_to_last_user_snoc, !length_app, !last_snoc. simpl.
  repeat split. intros i Hi. rewrite !lookup_app_l by lia. reflexivity.
Qed.

End HistoryFacts.

(** C10 (as amended): of a message list longer than 10 only the last 10
    messages are kept, a list of at most 10 is kept whole.  [chat] passes
    the kept messages to the agent as they are; [structured_chat] passes
    them with the schema instruction appended to the content of the last
    message when its role is "user", all other messages as they are. *)
Theorem history_limited_to_last_ten
    (request : ChatRequest) (srequest : StructuredChatRequest) :
  (10 < length (messages request) ->
   chat_messages request = drop (length (messages request) - 10) (messages request)
   /\ length (chat_messages request) = 10)
  /\ (length (messages request) <= 10 -> chat_messages request = messages request)
  /\ exists kept : list ChatMessage,
       (10 < length (s_messages srequest) ->
        kept = drop (length (s_messages srequest) - 10) (s_messages srequest)
        /\ length kept = 10)
       /\ (length (s_messages srequest) <= 10 -> kept = s_messages srequest)
       /\ length (structured_chat_messages srequest) = length kept
       /\ (forall i, S i < length kept -> structured_chat_messages srequest !! i = kept !! i)
       /\ last (structured_chat_messages srequest)
          = (fun m => if String.eqb (role m) "user"
                      then {| role := role m;
                              content := content m
                                         +:+ structured_instruction
                                               (structured_output_format srequest) |}
                      else m) <$> last kept.
Proof.
  split; [|split].
  - intros Hlong. unfold chat_messages. rewrite (limit_history_long _ Hlong).
    split; [reflexivity|]. rewrite length_drop. lia.
  - intros Hshort. unfold chat_messages. now apply limit_history_short.
  - exists (limit_history (s_messages srequest)). split; [|split].
    + intros Hlong. rewrite (limit_history_long _ Hlong).
      split; [reflexivity|]. rewrite length_drop. lia.
    + apply limit_history_short.
    + apply append_to_last_user_spec.
Qed.

Lemma history_limited_to_last_ten_witness :
  10 < length twelve_messages
  /\ map content
       (chat_messages {| messages := twelve_messages; stream := true; enable_research := true;
                         system_prompt := None; model := None; headless := true |})
     = ["3"; "4"; "5"; "6"; "7"; "8"; "9"; "10"; "11"; "12"].
Proof.
  assert (10 < length twelve_messages) as Hlong by (vm_compute; lia).
  split; [exact Hlong|].
  rewrite (proj1 (proj1 (history_limited_to_last_ten
                           {| messages := twelve_messages; stream := true;
                              enable_research := true; system_prompt := None;
                              model := None; headless := true |}
                           structured_request) Hlong)).
  reflexivity.
Defined.

(** C10 as stated fails for [structured_chat]: a single user message is
    within the limit, yet the agent receives it with the schema
    instruction appended. *)
Lemma structured_chat_alters_last_message :
  length (s_messages structured_request) <= 10
  /\ structured_chat_messages structured_request <> s_messages structured_request.
Proof. split; [vm_compute; lia | vm_compute; discriminate]. Qed.

(** * Further properties of the code *)

(** ** Tokens and the final event *)

Section TokenFacts.

Implicit Types (st : GenState) (out : list Emission) (s : string).

Lemma rstrip_idempotent s : rstrip (rstrip s) = rstrip s.
Proof.
  induction s as [|c s IH]; [reflexivity|].
  simpl. destruct (rstrip s) as [|c' rest] eqn:Hr.
  - destruct (is_space c) eqn:Hc; [reflexivity|]. simpl. now rewrite Hc.
  - change (rstrip (String c (String c' rest)))
      with (match rstrip (String c' rest) with
            | EmptyString => if is_space c then EmptyString else String c EmptyString
            | String a b => String c (String a b)
            end).
    now rewrite IH.
Qed.

Lemma lstrip_starts_unspaced s : starts_unspaced (lstrip s).
Proof.
  induction s as [|c s IH]; simpl; [exact I|].
  destruct (is_space c) eqn:Hc; [exact IH | exact Hc].
Qed.

Lemma rstrip_starts_unspaced s : starts_unspaced s -> starts_unspaced (rstrip s).
Proof.
  destruct s as [|c s]; [intros; exact I|]. simpl. intros Hc.
  destruct (rstrip s); [now rewrite Hc | exact Hc].
Qed.

Lemma lstrip_fixed s : starts_unspaced s -> lstrip s = s.
Proof. destruct s as [|c s]; simpl; [reflexivity|]. now intros ->. Qed.

(** Stripping a stripped string changes nothing. *)
Lemma strip_idempotent s : strip (strip s) = strip s.
Proof.
  unfold strip.
  rewrite (lstrip_fixed (rstrip (lstrip s)))
    by apply rstrip_starts_unspaced, lstrip_starts_unspaced.
  apply rstrip_idempotent.
Qed.

Lemma trace_tokens_app out1 out2 :
  trace_tokens (out1 ++ out2) = trace_tokens out1 ++ trace_tokens out2.
Proof. unfold trace_tokens. apply omap_app. Qed.

Lemma last_cons_default {A : Type} (x d : A) (l : list A) :
  List.last (x :: l) d = List.last l x.
Proof.
  revert x d. induction l as [|y l IH]; intros x d; [reflexivity|].
  change (List.last (x :: y :: l) d) with (List.last (y :: l) d).
  now rewrite (IH y d), (IH y x).
Qed.

Lemma last_in_nonempty {A : Type} (x d : A) (l : list A) :
  In (List.last (x :: l) d) (x :: l).
Proof.
  revert x. induction l as [|y l IH]; intros x; [now left|].
  right. apply (IH y).
Qed.

Lemma token_chain_app prev tokens1 tokens2 :
  token_chain prev tokens1 ->
  token_chain (List.last tokens1 prev) tokens2 ->
  token_chain prev (tokens1 ++ tokens2).
Proof.
  revert prev. induction tokens1 as [|c tokens1 IH]; intros prev H1 H2; [exact H2|].
  destruct H1 as (Hne & Hnonempty & Hstrip & Hrest). simpl.
  repeat split; try assumption. apply IH; [exact Hrest|].
  now rewrite last_cons_default in H2.
Qed.

Lemma last_app_default {A : Type} (tokens1 tokens2 : list A) (prev : A) :
  List.last (tokens1 ++ tokens2) prev = List.last tokens2 (List.last tokens1 prev).
Proof.
  revert prev. induction tokens1 as [|c tokens1 IH]; intros prev; [reflexivity|].
  change ((c :: tokens1) ++ tokens2) with (c :: (tokens1 ++ tokens2)).
  now rewrite !last_cons_default, IH.
Qed.

Lemma surface_calls_tokens calls : forall st,
  trace_tokens (snd (surface_calls st calls)) = []
  /\ final_response (fst (surface_calls st calls)) = final_response st.
Proof.
  induction calls as [|tc calls IH]; intros st; simpl; [now split|].
  case_bool_decide; [apply IH|].
  match goal with |- context [surface_calls ?s calls] =>
    specialize (IH s); destruct (surface_calls s calls) as [st2 out] end.
  simpl in *. exact IH.
Qed.

(** One chunk: the tokens it emits continue the chain, and the state
    remembers the last of them. *)
Lemma process_chunk_tokens st chunk :
  let tokens := trace_tokens (snd (process_chunk st chunk)) in
  token_chain (final_response st) tokens
  /\ final_response (fst (process_chunk st chunk)) = List.last tokens (final_response st).
Proof.
  unfold process_chunk.
  destruct chunk as [messages|]; [|now split].
  destruct (last messages) as [last_message|]; [|now split].
  destruct (_ && is_nonempty _).
  { destruct (surface_calls_tokens (default [] (tool_calls last_message)) st) as [-> ->].
    now split. }
  destruct (msg_content last_message) as [raw|]; [|now split].
  destruct (_ && negb (String.eqb raw "")); [|now split].
  destruct (negb (String.eqb (strip raw) "")) eqn:Hne; [|now split].
  destruct (negb (String.eqb (strip raw) (final_response st))) eqn:Hnew; [|now split].
  simpl. apply negb_true_iff, String.eqb_neq in Hne, Hnew.
  repeat split; try assumption. apply strip_idempotent.
Qed.

Lemma run_chunks_tokens cs : forall st,
  let tokens := trace_tokens (snd (run_chunks st cs)) in
  token_chain (final_response st) tokens
  /\ final_response (fst (run_chunks st cs)) = List.last tokens (final_response st).
Proof.
  induction cs as [|chunk cs IH]; intros st; simpl; [now split|].
  pose proof (process_chunk_tokens st chunk) as [Hc1 Hl1].
  destruct (process_chunk st chunk) as [st1 out1].
  specialize (IH st1). destruct (run_chunks st1 cs) as [st2 out2]. simpl in *.
  destruct IH as [Hc2 Hl2]. rewrite trace_tokens_app. split.
  - apply token_chain_app; [exact Hc1|]. now rewrite <- Hl1.
  - rewrite last_app_default, <- Hl1. exact Hl2.
Qed.

Lemma token_contents_of_trace out :
  token_contents (map event_of out) = trace_tokens out.
Proof.
  unfold token_contents, trace_tokens.
  induction out as [|e out IH]; [reflexivity|].
  destruct e; simpl; now rewrite IH.
Qed.

Lemma token_contents_app (events1 events2 : list Event) :
  token_contents (events1 ++ events2) = token_contents events1 ++ token_contents events2.
Proof. unfold token_contents. now rewrite List.filter_app, map_app. Qed.

Lemma token_chain_lookup prev tokens :
  token_chain prev tokens ->
  Forall (fun content => content <> "" /\ strip content = content) tokens
  /\ forall i c1 c2, tokens !! i = Some c1 -> tokens !! S i = Some c2 -> c1 <> c2.
Proof.
  revert prev. induction tokens as [|c tokens IH]; intros prev Hchain.
  - split; [constructor | intros i c1 c2 [=]].
  - destruct Hchain as (_ & Hnonempty & Hstrip & Hrest).
    destruct (IH c Hrest) as [Hall Hadj]. split; [constructor; auto|].
    intros [|i] c1 c2 H1 H2.
    + injection H1 as <-. destruct tokens as [|c' tokens]; [discriminate|].
      injection H2 as <-. destruct Hrest as (Hne & _). congruence.
    + now apply (Hadj i).
Qed.

Lemma generate_tokens src :
  token_contents (generate_events src)
  = trace_tokens (snd (run_chunks initial_state (chunks src))).
Proof.
  unfold generate_events. rewrite generate_trace_split, map_app, token_contents_app.
  rewrite token_contents_of_trace.
  destruct (failure src); [apply app_nil_r|]. destruct (negb _); apply app_nil_r.
Qed.

End TokenFacts.

Section WhitespaceFacts.

Lemma is_space_table (c : ascii) :
  is_space c = existsb (N.eqb (N_of_ascii c)) python_whitespace.
Proof.
  destruct c as [b0 b1 b2 b3 b4 b5 b6 b7].
  destruct b0, b1, b2, b3, b4, b5, b6, b7; reflexivity.
Qed.

Lemma not_space_spec (c : ascii) :
  is_space c = false -> ~ In (N_of_ascii c) python_whitespace.
Proof.
  rewrite is_space_table. intros Hno Hin.
  assert (existsb (N.eqb (N_of_ascii c)) python_whitespace = true) as Hyes.
  { apply existsb_exists. exists (N_of_ascii c). split; [exact Hin | apply N.eqb_refl]. }
  congruence.
Qed.

Lemma rstrip_last (s : string) (c : ascii) :
  last_char (rstrip s) = Some c -> is_space c = false.
Proof.
  induction s as [|a s IH]; [discriminate|].
  simpl rstrip. destruct (rstrip s) as [|b rest] eqn:Hr.
  - destruct (is_space a) eqn:Ha; [discriminate|]. now intros [= <-].
  - intros Hlast. apply IH. exact Hlast.
Qed.

Lemma strip_first (s : string) (c : ascii) :
  first_char (strip s) = Some c -> is_space c = false.
Proof.
  pose proof (rstrip_starts_unspaced _ (lstrip_starts_unspaced s)) as H.
  unfold strip. destruct (rstrip (lstrip s)); [discriminate|]. now intros [= <-].
Qed.

Lemma last_char_nonempty (s : string) : s <> "" -> exists c, last_char s = Some c.
Proof.
  induction s as [|a s IH]; [congruence|]. intros _.
  destruct s as [|b s]; [now exists a|]. destruct IH as [c Hc]; [discriminate|].
  exists c. exact Hc.
Qed.

(** The ends of a non-empty stripped string are no whitespace. *)
Lemma stripped_ends (content : string) :
  content <> "" -> strip content = content ->
  exists first final,
    first_char content = Some first /\ last_char content = Some final
    /\ ~ In (N_of_ascii first) python_whitespace
    /\ ~ In (N_of_ascii final) python_whitespace.
Proof.
  intros Hne Hstrip.
  destruct content as [|first rest] eqn:Hc; [congruence|].
  destruct (last_char_nonempty (String first rest)) as [final Hfinal]; [discriminate|].
  exists first, final. split; [reflexivity|]. split; [exact Hfinal|]. split.
  - apply not_space_spec, (strip_first (String first rest)). now rewrite Hstrip.
  - apply not_space_spec, (rstrip_last (lstrip (String first rest))).
    fold (strip (String first rest)). now rewrite Hstrip.
Qed.

End WhitespaceFacts.

(** X1: every token event carries a non-empty content whose first and last
    characters are no whitespace (none of the code points 9-13, 28-32, 133
    and 160), and two token events in a row (whatever thinking events lie
    between them) never carry the same content. *)
Theorem tokens_stripped_and_changing (src : Source) :
  Forall (fun content =>
            exists first final,
              first_char content = Some first /\ last_char content = Some final
              /\ ~ In (N_of_ascii first) [9; 10; 11; 12; 13; 28; 29; 30; 31; 32; 133; 160]%N
              /\ ~ In (N_of_ascii final) [9; 10; 11; 12; 13; 28; 29; 30; 31; 32; 133; 160]%N)
         (token_contents (generate_events src))
  /\ forall i c1 c2,
       token_contents (generate_events src) !! i = Some c1 ->
       token_contents (generate_events src) !! S i = Some c2 ->
       c1 <> c2.
Proof.
  rewrite generate_tokens.
  destruct (token_chain_lookup "" _ (proj1 (run_chunks_tokens (chunks src) initial_state)))
    as [Hall Hadj].
  split; [|exact Hadj].
  eapply Forall_impl; [exact Hall|]. intros content [Hne Hstrip].
  now apply stripped_ends.
Qed.

(** A padded answer is streamed without its padding, and an answer of
    blanks is not streamed at all. *)
Example padded_content_is_stripped :
  generate_events {| chunks := [Some [ai_text "   "]; Some [ai_text "  done. "]];
                     failure := None |}
  = [{| ev_type := "token"; ev_content := "done." |};
     {| ev_type := "final"; ev_content := "done." |}].
Proof. vm_compute. reflexivity. Qed.

(** The events of a source that ends without raising: those of the loop,
    then the final event with the last token. *)
Lemma final_event_content (src : Source) :
  failure src = None ->
  generate_events src
  = map event_of (snd (run_chunks initial_state (chunks src)))
    ++ [{| ev_type := "final";
           ev_content := List.last (token_contents (generate_events src))
                                   "Task completed." |}].
Proof.
  intros Hok. rewrite generate_tokens.
  unfold generate_events. rewrite generate_trace_split, map_app, Hok. f_equal.
  pose proof (run_chunks_tokens (chunks src) initial_state) as [Hchain Hlast].
  cbv zeta in Hchain, Hlast. rewrite Hlast.
  destruct (trace_tokens (snd (run_chunks initial_state (chunks src)))) as [|c tokens] eqn:Htok.
  - reflexivity.
  - assert (List.last (c :: tokens) (final_response initial_state) <> "") as Hne.
    { apply token_chain_lookup in Hchain as [Hall _].
      rewrite Forall_forall in Hall.
      pose proof (last_in_nonempty c (final_response initial_state) tokens) as Hin.
      apply list_elem_of_In, Hall in Hin. tauto. }
    apply String.eqb_neq in Hne. rewrite Hne. cbn [negb map event_of].
    now rewrite !last_cons_default.
Qed.

(** The events of a source that raises: those of the loop, then the error. *)
Lemma error_event_content (src : Source) (e : string) :
  failure src = Some e ->
  generate_events src
  = map event_of (snd (run_chunks initial_state (chunks src)))
    ++ [{| ev_type := "error"; ev_content := e |}].
Proof.
  intros Hf. unfold generate_events. now rewrite generate_trace_split, map_app, Hf.
Qed.

(** X2: when the source ends without raising, the final event carries the
    content of the last token event, and ["Task completed."] when no token
    was emitted. *)
Theorem final_repeats_last_token (src : Source) :
  failure src = None ->
  List.last (generate_events src) {| ev_type := ""; ev_content := "" |}
  = {| ev_type := "final";
       ev_content := List.last (token_contents (generate_events src)) "Task completed." |}.
Proof.
  intros Hok. rewrite (final_event_content src Hok) at 1.
  now rewrite last_app_default.
Qed.

Lemma final_repeats_last_token_witness :
  failure repeated_call_source = None
  /\ List.last (generate_events repeated_call_source) {| ev_type := ""; ev_content := "" |}
     = {| ev_type := "final"; ev_content := "final answer" |}.
Proof.
  split; [reflexivity|].
  rewrite (final_repeats_last_token repeated_call_source eq_refl).
  vm_compute. reflexivity.
Defined.

(** ** Snapshots that say nothing, and streaming order *)

Section StreamFacts.

Implicit Types (st : GenState) (cs : list Chunk).

Lemma process_chunk_silent st chunk :
  (forall messages last_message,
     chunk = Some messages -> last messages = Some last_message ->
     msg_type last_message <> "AIMessage") ->
  process_chunk st chunk = (st, []).
Proof.
  intros Hquiet. unfold process_chunk.
  destruct chunk as [messages|]; [|reflexivity].
  destruct (last messages) as [last_message|] eqn:Hlast; [|reflexivity].
  specialize (Hquiet messages last_message eq_refl Hlast).
  apply String.eqb_neq in Hquiet. rewrite Hquiet. simpl.
  now destruct (msg_content last_message).
Qed.

Lemma run_chunks_silent cs : forall st,
  no_ai_message cs -> run_chunks st cs = (st, []).
Proof.
  induction cs as [|chunk cs IH]; intros st Hquiet; [reflexivity|].
  simpl. rewrite process_chunk_silent.
  - rewrite IH; [reflexivity|]. intros messages m Hin. apply Hquiet. now right.
  - intros messages m ->. apply Hquiet. now left.
Qed.

(** Running the loop over two stretches of chunks is running it over the
    first and then, from the state reached, over the second. *)
Lemma run_chunks_app cs1 cs2 : forall st,
  run_chunks st (cs1 ++ cs2)
  = (fst (run_chunks (fst (run_chunks st cs1)) cs2),
     snd (run_chunks st cs1) ++ snd (run_chunks (fst (run_chunks st cs1)) cs2)).
Proof.
  induction cs1 as [|chunk cs1 IH]; intros st; simpl.
  - now destruct (run_chunks st cs2).
  - destruct (process_chunk st chunk) as [st1 out1]. rewrite IH.
    destruct (run_chunks st1 cs1) as [st2 out2]. simpl.
    now rewrite app_assoc.
Qed.

End StreamFacts.

(** X3: when no snapshot ends with an [AIMessage] (in particular for a
    source without snapshots, or whose chunks lack messages), the stream is
    the terminal event alone: the error, or a final event with the fixed
    text ["Task completed."]. *)
Theorem silent_source_only_terminates (src : Source) :
  no_ai_message (chunks src) ->
  generate_events src
  = [match failure src with
     | Some e => {| ev_type := "error"; ev_content := e |}
     | None => {| ev_type := "final"; ev_content := "Task completed." |}
     end].
Proof.
  intros Hquiet. unfold generate_events, generate_trace.
  rewrite (run_chunks_silent _ _ Hquiet). now destruct (failure src).
Qed.

Lemma silent_source_only_terminates_witness :
  generate_events {| chunks := [None; Some []; Some [human_text "hi"];
                                Some [human_text "hi"; tool_text "42"]];
                     failure := None |}
  = [{| ev_type := "final"; ev_content := "Task completed." |}].
Proof.
  apply (silent_source_only_terminates
           {| chunks := [None; Some []; Some [human_text "hi"];
                         Some [human_text "hi"; tool_text "42"]];
              failure := None |}).
  intros messages m Hin Hlast. simpl in Hin.
  destruct Hin as [Hin|[Hin|[Hin|[Hin|[]]]]]; try discriminate;
    injection Hin as <-; simpl in Hlast; try discriminate;
    injection Hlast as <-; discriminate.
Defined.

(** X4: events are streamed in the order of the snapshots and never taken
    back: what is emitted before the terminal event for a source is the
    beginning of what is emitted for any source that continues it, however
    either of them ends. *)
Theorem earlier_events_are_kept (cs1 cs2 : list Chunk) (end1 end2 : option string) :
  exists later,
    generate_events {| chunks := cs1 ++ cs2; failure := end2 |}
    = removelast (generate_events {| chunks := cs1; failure := end1 |}) ++ later.
Proof.
  unfold generate_events. rewrite !generate_trace_split. simpl chunks.
  rewrite run_chunks_app. simpl snd.
  rewrite !map_app. cbn [map]. rewrite removelast_last, <- app_assoc.
  eexists. reflexivity.
Qed.

(** ** The spool file and the shape of truncated values *)

Section TruncationFacts.

Lemma str_take_exact (n : nat) (s : string) :
  n <= String.length s -> String.length (str_take n s) = n.
Proof.
  revert s. induction n as [|n IH]; intros [|c s]; simpl; intros Hn; try lia.
  rewrite IH; lia.
Qed.

Lemma str_take_app_exact (n : nat) (a b : string) :
  String.length a = n -> str_take n (a +:+ b) = a.
Proof.
  revert a. induction n as [|n IH]; intros [|c a]; simpl; intros Hn; try discriminate.
  - now destruct b.
  - f_equal. apply IH. lia.
Qed.

Lemma truncate_value_long (s : string) :
  (200 < len s)%Z -> truncate_value (PyStr s) = PyStr (str_take 200 s +:+ "...").
Proof. intros Hlong. simpl. unfold field_cap. apply Z.ltb_lt in Hlong. now rewrite Hlong. Qed.

Lemma truncate_value_idempotent (x : PyValue) :
  truncate_value (truncate_value x) = truncate_value x.
Proof.
  destruct x as [| | |s| | |]; try reflexivity.
  destruct (Z.ltb_spec 200 (len s)) as [Hlong|Hshort].
  - rewrite (truncate_value_long s Hlong).
    assert (String.length (str_take 200 s) = 200) as Hlen
      by (apply str_take_exact; unfold len in Hlong; lia).
    rewrite truncate_value_long.
    + now rewrite str_take_app_exact.
    + rewrite len_app. unfold len. rewrite Hlen. simpl. lia.
  - assert (truncate_value (PyStr s) = PyStr s) as ->; [|].
    { simpl. unfold field_cap. destruct (Z.ltb_spec 200 (len s)); [lia | reflexivity]. }
    simpl. unfold field_cap. destruct (Z.ltb_spec 200 (len s)); [lia | reflexivity].
Qed.

End TruncationFacts.

(** X5: a string field longer than 200 characters is delivered with exactly
    203 characters, so a field of 201 or 202 characters comes back longer
    than it was. *)
Theorem cut_field_has_203_characters (s : string) :
  (200 < len s)%Z ->
  exists t, truncate_value (PyStr s) = PyStr t
            /\ len t = 203%Z
            /\ ((len s < 203)%Z -> (len s < len t)%Z).
Proof.
  intros Hlong. exists (str_take 200 s +:+ "..."). split; [now apply truncate_value_long|].
  assert (len (str_take 200 s +:+ "...") = 203%Z) as Hlen.
  { rewrite len_app. unfold len at 1.
    rewrite str_take_exact by (unfold len in Hlong; lia). reflexivity. }
  split; [exact Hlen | lia].
Qed.

Lemma cut_field_has_203_characters_witness :
  (200 < len (spaces 201))%Z
  /\ exists t, truncate_value (PyStr (spaces 201)) = PyStr t /\ (len (spaces 201) < len t)%Z.
Proof.
  assert (200 < len (spaces 201))%Z as Hlong by (vm_compute; reflexivity).
  split; [exact Hlong|].
  destruct (cut_field_has_203_characters (spaces 201) Hlong) as (t & Ht & _ & Hgrow).
  exists t. split; [exact Ht|]. apply Hgrow. vm_compute. reflexivity.
Defined.

(** X6: truncating a mapping is stable: a mapping that was truncated, when
    truncated again, stays as it is. *)
Theorem truncate_dict_idempotent (d : list (string * PyValue)) :
  NoDup (map fst d) ->
  truncate (truncate (PyDict d)) = truncate (PyDict d).
Proof.
  intros Hnd. simpl. f_equal.
  rewrite (truncate_dict_unique_keys d Hnd).
  rewrite truncate_dict_unique_keys by (now rewrite map_map).
  rewrite map_map. apply map_ext. intros [k x]. simpl.
  now rewrite truncate_value_idempotent.
Qed.

Lemma truncate_dict_idempotent_witness :
  truncate (truncate big_dict) = truncate big_dict.
Proof.
  apply (truncate_dict_idempotent
           [("Id", PyInt 7); ("Description", PyStr (spaces (Z.to_nat 10001)));
            ("Tags", PyList [PyStr (spaces 300)])]).
  cbn [map fst]. repeat (apply NoDup_cons; split; [set_solver|]). apply NoDup_nil. done.
Defined.

(** X7: of an oversized list the delivered payload holds the first five
    items, mappings among them with their fields cut and every other item
    as it is, however large; a list of more than five items gets exactly
    one more item, the text ["... and N more items"] with [N] the number of
    items left out, and a list of at most five items gets no marker. *)
Theorem oversized_list_delivery
    (json_loads : string -> option PyValue) (tool_name timestamp : string)
    (faults : Faults) (fs : FileSystem) (returned : ToolReturn)
    (l : list PyValue) (v : PyValue) :
  normalize json_loads returned = PyList l ->
  (10000 < len (result_str (PyList l)))%Z ->
  fst (wrapped_func json_loads tool_name timestamp faults fs returned) = Returned v ->
  exists l', v = PyList l'
    /\ (forall i x, i < 5 -> l !! i = Some x ->
          l' !! i = Some (match x with
                          | PyDict d => PyDict (truncate_dict d)
                          | _ => x
                          end))
    /\ (length l <= 5 -> length l' = length l)
    /\ (5 < length l ->
        length l' = 6
        /\ l' !! 5 = Some (PyStr ("... and " +:+ str_of_Z (Z.of_nat (length l) - 5)
                                  +:+ " more items"))).
Proof.
  intros Hnorm Hbig Hret. rewrite <- Hnorm in Hbig.
  pose proof (wrapped_func_delivers json_loads _ _ _ _ _ _ Hbig Hret) as ->.
  rewrite Hnorm. exists (truncate_list l). split; [reflexivity|].
  apply truncate_list_shape.
Qed.

Lemma oversized_list_delivery_witness :
  exists l', fst (wrapped_func json_loads_sample "soql_query" "20250101_120000" no_faults
                    empty_fs (Plain big_list)) = Returned (PyList l')
    /\ length l' = 6
    /\ l' !! 5 = Some (PyStr "... and 1996 more items").
Proof.
  assert (fst (wrapped_func json_loads_sample "soql_query" "20250101_120000" no_faults
                 empty_fs (Plain big_list)) = Returned (truncate big_list))
    as Hret by (vm_compute; reflexivity).
  destruct (oversized_list_delivery json_loads_sample "soql_query" "20250101_120000"
              no_faults empty_fs (Plain big_list) (repeat PyNone 2001) (truncate big_list)
              eq_refl ltac:(vm_compute; reflexivity) Hret)
    as (l' & Hv & _ & _ & Hlong).
  exists l'. split; [now rewrite <- Hv|].
  destruct Hlong as [Hlen Hmark]; [rewrite repeat_length; lia|].
  split; [exact Hlen|]. rewrite Hmark. f_equal.
Defined.



(** ** The custom tools after wrapping *)

(** X9: wrapping the custom tools keeps their number, order, names and
    argument schemas, and hands every tool that is not one of the three
    browser tools on as the very same object. *)
Theorem wrapping_keeps_the_tool_list {R : Type} (headless : bool) (custom_tools : list (Tool R)) :
  map name (wrapped_custom_tools headless custom_tools) = map name custom_tools
  /\ map args_schema (wrapped_custom_tools headless custom_tools)
     = map args_schema custom_tools
  /\ forall i tool,
       custom_tools !! i = Some tool ->
       ~ In (name tool) ["browser_research"; "browser_research_multiple";
                         "browser_interactive_research"] ->
       wrapped_custom_tools headless custom_tools !! i = Some tool.
Proof.
  unfold wrapped_custom_tools. split; [|split].
  - rewrite map_map. apply map_ext. intros tool. unfold wrap_custom_tool.
    now destruct (is_browser_tool tool).
  - rewrite map_map. apply map_ext. intros tool. unfold wrap_custom_tool.
    now destruct (is_browser_tool tool).
  - intros i tool Hi Hname.
    change (map (wrap_custom_tool headless) custom_tools)
      with (wrap_custom_tool headless <$> custom_tools).
    rewrite list_lookup_fmap, Hi. simpl. f_equal.
    apply other_tools_untouched. apply not_true_is_false. intros Hb.
    apply Hname. unfold is_browser_tool in Hb. apply existsb_exists in Hb as (n & Hin & Heq).
    apply String.eqb_eq in Heq. now rewrite Heq.
Qed.

Lemma wrapping_keeps_the_tool_list_witness :
  wrapped_custom_tools false [calculator; browser_research] !! 0 = Some calculator
  /\ map name (wrapped_custom_tools false [calculator; browser_research])
     = ["calculator"; "browser_research"].
Proof.
  pose proof (wrapping_keeps_the_tool_list false [calculator; browser_research])
    as (Hnames & _ & Hsame).
  split; [|exact Hnames].
  apply Hsame; [reflexivity|]. simpl. intros [H|[H|[H|[]]]]; discriminate.
Defined.

(** X10: the callable wrapped for a browser tool is the one under
    [coroutine] whenever the tool has that attribute, even when it holds
    [None]: the wrapped tool of a tool whose function is under [func] then
    raises [TypeError] on every call.  [func] is used only by a tool
    without the attribute. *)
Theorem browser_tool_without_coroutine_raises {R : Type} (headless : bool) (tool : Tool R) :
  In (name tool) ["browser_research"; "browser_research_multiple";
                  "browser_interactive_research"] ->
  exists wrapped_func,
    coroutine (wrap_custom_tool headless tool) = Has (Some wrapped_func)
    /\ func (wrap_custom_tool headless tool) = None
    /\ (coroutine tool = Has None ->
        forall args kwargs,
          wrapped_func args kwargs = Raised "TypeError: 'NoneType' object is not callable")
    /\ (coroutine tool = Missing ->
        forall f args kwargs,
          func tool = Some f ->
          wrapped_func args kwargs = f args (<["headless" := PyBool headless]> kwargs)).
Proof.
  intros Hname.
  assert (is_browser_tool tool = true) as Hb.
  { unfold is_browser_tool, browser_tool_names. apply existsb_exists.
    exists (name tool). split; [exact Hname | apply String.eqb_refl]. }
  unfold wrap_custom_tool. rewrite Hb. simpl.
  eexists. split; [reflexivity|]. split; [reflexivity|]. split.
  - intros Hnone args kwargs. unfold create_wrapped_browser_tool, original_func.
    now rewrite Hnone.
  - intros Hmissing f args kwargs Hf. unfold create_wrapped_browser_tool, original_func.
    now rewrite Hmissing, Hf.
Qed.

Lemma browser_tool_without_coroutine_raises_witness :
  match coroutine (wrap_custom_tool true sync_browser_research) with
  | Has (Some wrapped_func) => wrapped_func [] {[ "url" := PyStr "https://example.org" ]}
  | _ => Returned PyNone
  end = Raised "TypeError: 'NoneType' object is not callable".
Proof.
  destruct (browser_tool_without_coroutine_raises true sync_browser_research)
    as (wf & Hwf & _ & Hraise & _); [simpl; tauto|].
  rewrite Hwf. apply Hraise. reflexivity.
Defined.

(** ** The agent slot over several requests *)

Section SlotFacts.

Variable env : Env.

Lemma initialize_agent_stores instructions enable_research model headless m a m' :
  initialize_agent env instructions enable_research model headless m = (Returned a, m') ->
  agent m' = Some a /\ agent_research a = enable_research
  /\ agent_headless a = headless
  /\ agent_model a = (if truthy model then default "" model else config_MODEL env)
  /\ agent_system_prompt a = default (default_instructions env headless) instructions
  /\ created m <= agent_id a.
Proof.
  unfold initialize_agent.
  destruct (mcp_enabled env); simpl; destruct (create_fails env _); try discriminate;
    intros [= <- <-]; simpl; repeat split; try lia; now destruct instructions.
Qed.

Lemma initialize_agent_fails instructions enable_research model headless m e m' :
  initialize_agent env instructions enable_research model headless m = (Raised e, m') ->
  agent m' = agent m /\ created m < created m'.
Proof.
  unfold initialize_agent.
  destruct (mcp_enabled env); simpl; destruct (create_fails env _); try discriminate;
    intros [= <- <-]; simpl; split; try reflexivity; lia.
Qed.

Lemma get_agent_slot m a m' :
  get_agent env m = (Returned a, m') -> agent m' = Some a.
Proof.
  unfold get_agent. destruct (agent m) as [a0|] eqn:Ha.
  - now intros [= <- <-].
  - intros Hinit. now apply initialize_agent_stores in Hinit as (H & _).
Qed.

End SlotFacts.

(** X11: [get_agent] builds lazily and only once: after a call that
    returned an agent, the slot holds that agent, and calling again returns
    it without constructing anything or changing the manager. *)
Theorem get_agent_builds_once (env : Env) (m m' : AgentManager) (a : Agent) :
  get_agent env m = (Returned a, m') ->
  agent m' = Some a /\ get_agent env m' = (Returned a, m').
Proof.
  intros Hget. pose proof (get_agent_slot env m a m' Hget) as Hslot.
  split; [exact Hslot|]. unfold get_agent. now rewrite Hslot.
Qed.

Lemma get_agent_builds_once_witness :
  get_agent quiet_env (snd (get_agent quiet_env new_manager))
  = get_agent quiet_env new_manager.
Proof.
  destruct (get_agent quiet_env new_manager) as [[a|e] m'] eqn:Hget;
    [|vm_compute in Hget; discriminate].
  exact (proj2 (get_agent_builds_once quiet_env new_manager m' a Hget)).
Defined.

(** X12: a rebuild whose construction fails answers with the error and
    leaves the slot empty, the agent held before being gone; the next
    request without custom values then builds an agent from the defaults
    (the configured model, the default instructions, headless mode). *)
Theorem failed_rebuild_empties_the_slot
    (env : Env) (system_prompt model : option string) (headless : bool) (m : AgentManager) :
  rebuild_requested system_prompt model headless = true ->
  create_fails env (created m + (if mcp_enabled env then 1 else 0)) = true ->
  exists e m1,
    request_agent env system_prompt model headless m = (Raised e, m1)
    /\ agent m1 = None
    /\ (create_fails env (created m1 + (if mcp_enabled env then 1 else 0)) = false ->
        exists a m2,
          request_agent env None None true m1 = (Returned a, m2)
          /\ agent_model a = config_MODEL env
          /\ agent_system_prompt a = default_instructions env true
          /\ agent_headless a = true).
Proof.
  intros Hreq Hfail. unfold request_agent, reinitialize_agent. rewrite Hreq.
  set (m0 := {| agent := None; mcp_client := None; created := created m |}).
  destruct (initialize_agent env system_prompt true model headless m0) as [[a|e] m1] eqn:Hinit.
  - exfalso. unfold initialize_agent in Hinit.
    destruct (mcp_enabled env); simpl in *.
    + replace (created m + 1) with (S (created m)) in Hfail by lia. now rewrite Hfail in Hinit.
    + replace (created m + 0) with (created m) in Hfail by lia. now rewrite Hfail in Hinit.
  - exists e, m1. split; [reflexivity|].
    destruct (initialize_agent_fails env _ _ _ _ _ _ _ Hinit) as [Hslot _].
    split; [exact Hslot|]. intros Hok.
    destruct (initialize_agent_fresh env None true None true m1 Hok)
      as (a & m2 & Hinit2 & _ & _ & Hh & Hmod & Hsp).
    exists a, m2. simpl. unfold get_agent. rewrite Hslot, Hinit2.
    repeat split; assumption.
Qed.

Lemma failed_rebuild_empties_the_slot_witness :
  exists e m1 a m2,
    chat_agent flaky_env request_model_x new_manager = (Raised e, m1)
    /\ agent m1 = None
    /\ chat_agent flaky_env request_plain m1 = (Returned a, m2)
    /\ agent_model a = "anthropic:claude-sonnet-4-20250514".
Proof.
  destruct (failed_rebuild_empties_the_slot flaky_env None (Some "openai:gpt-4") true
              new_manager eq_refl eq_refl) as (e & m1 & Hfail & Hslot & Hnext).
  exists e, m1.
  assert (m1 = {| agent := None; mcp_client := None; created := 1 |}) as Hm1
    by (vm_compute in Hfail; now injection Hfail as _ <-).
  destruct Hnext as (a & m2 & Hrun & Hmodel & _); [now rewrite Hm1|].
  exists a, m2. repeat split; assumption.
Defined.

(** X13: the research switch of a request is never read: every agent
    returned for a chat or structured-chat request has research enabled,
    provided the agent already in the slot, if any, has. *)
Theorem research_is_always_enabled
    (env : Env) (system_prompt model : option string) (headless : bool)
    (m m' : AgentManager) (a : Agent) :
  (forall old, agent m = Some old -> agent_research old = true) ->
  request_agent env system_prompt model headless m = (Returned a, m') ->
  agent_research a = true
  /\ (forall stored, agent m' = Some stored -> agent_research stored = true).
Proof.
  intros Hold Hrun.
  assert (agent m' = Some a) as Hslot.
  { unfold request_agent in Hrun. destruct (rebuild_requested _ _ _).
    - destruct (reinitialize_agent env system_prompt model headless m) as [[a0|e] m1];
        [|discriminate].
      now apply get_agent_slot in Hrun.
    - now apply get_agent_slot in Hrun. }
  assert (agent_research a = true) as Hres.
  { unfold request_agent in Hrun. destruct (rebuild_requested _ _ _).
    - unfold reinitialize_agent in Hrun.
      destruct (initialize_agent env system_prompt true model headless _)
        as [[a0|e] m1] eqn:Hinit; [|discriminate].
      apply initialize_agent_stores in Hinit as (Hs & Hr & _).
      unfold get_agent in Hrun. rewrite Hs in Hrun. now injection Hrun as <- _.
    - unfold get_agent in Hrun. destruct (agent m) as [a0|] eqn:Ha.
      + injection Hrun as <- _. now apply Hold.
      + now apply initialize_agent_stores in Hrun as (_ & Hr & _). }
  split; [exact Hres|]. intros stored Hstored. congruence.
Qed.

Lemma research_is_always_enabled_witness :
  exists a m',
    structured_chat_agent quiet_env structured_request new_manager = (Returned a, m')
    /\ s_enable_research structured_request = false
    /\ agent_research a = true.
Proof.
  destruct (structured_chat_agent quiet_env structured_request new_manager)
    as [[a|e] m'] eqn:Hrun; [|vm_compute in Hrun; discriminate].
  exists a, m'. split; [reflexivity|]. split; [reflexivity|].
  refine (proj1 (research_is_always_enabled quiet_env None None true new_manager m' a _ Hrun)).
  intros old [=].
Defined.


(** ** The chat handlers *)

(** X14: in streaming mode [chat] answers with HTTP 500 only when the agent
    cannot be obtained, and then streams nothing; once it has the agent the
    answer is always a stream, and a failure of the agent in mid-stream is
    its last frame, the error event (the final event otherwise). *)
Theorem chat_stream_reports_failures_in_band
    (env : Env) (rt : AgentRuntime) (request : ChatRequest) (m : AgentManager) :
  stream request = true ->
  (forall e m1, chat_agent env request m = (Raised e, m1) ->
                chat env rt request m = (HTTPException 500 e, m1))
  /\ (forall a m1, chat_agent env request m = (Returned a, m1) ->
        exists earlier : list string,
          chat env rt request m
          = (StreamingResponse
               (earlier ++
                [sse_frame
                   (match failure (astream rt a (chat_messages request)) with
                    | Some e => {| ev_type := "error"; ev_content := e |}
                    | None =>
                        {| ev_type := "final";
                           ev_content :=
                             List.last (token_contents
                                          (generate_events (astream rt a (chat_messages request))))
                                       "Task completed." |}
                    end)]),
             m1)).
Proof.
  intros Hstream. split.
  - intros e m1 Hrun. unfold chat. now rewrite Hrun.
  - intros a m1 Hrun. unfold chat. rewrite Hrun, Hstream.
    set (src := astream rt a (chat_messages request)).
    exists (map sse_frame (map event_of (snd (run_chunks initial_state (chunks src))))).
    f_equal. f_equal. unfold generate.
    destruct (failure src) as [e|] eqn:Hf.
    + now rewrite (error_event_content src e Hf), map_app.
    + now rewrite (final_event_content src Hf) at 1; rewrite map_app.
Qed.

Lemma chat_stream_reports_failures_in_band_witness :
  exists earlier m1,
    chat quiet_env broken_runtime request_plain new_manager
    = (StreamingResponse
         (earlier ++ [sse_frame {| ev_type := "error"; ev_content := "connection reset" |}]),
       m1).
Proof.
  destruct (chat_agent quiet_env request_plain new_manager) as [[a|e] m1] eqn:Hrun;
    [|vm_compute in Hrun; discriminate].
  destruct (proj2 (chat_stream_reports_failures_in_band quiet_env broken_runtime
                     request_plain new_manager eq_refl) a m1 Hrun) as (earlier & Hchat).
  exists earlier, m1. exact Hchat.
Defined.

(** X15: [update_config] rebuilds on every call, whatever the request
    holds: the new agent runs the configured default model, with the
    request's instructions (the default ones when absent) and browser mode;
    a construction that fails is answered with HTTP 500 and leaves the slot
    empty. *)
Theorem update_config_always_rebuilds (env : Env) (request : ConfigRequest) (m : AgentManager) :
  (create_fails env (created m + (if mcp_enabled env then 1 else 0)) = false ->
   exists a m',
     update_config env request m = (success "Agent reinitialized", m')
     /\ agent m' = Some a
     /\ created m <= agent_id a
     /\ agent_model a = config_MODEL env
     /\ agent_headless a = c_headless request
     /\ agent_system_prompt a
        = default (default_instructions env (c_headless request)) (c_instructions request))
  /\ (create_fails env (created m + (if mcp_enabled env then 1 else 0)) = true ->
      exists e m',
        update_config env request m = (HTTPException 500 e, m') /\ agent m' = None).
Proof.
  unfold update_config, reinitialize_agent.
  set (m0 := {| agent := None; mcp_client := None; created := created m |}).
  split; intros Hc.
  - destruct (initialize_agent_fresh env (c_instructions request) true None
                (c_headless request) m0 Hc) as (a & m' & Hinit & Hs & Hid & Hh & Hmod & Hsp).
    rewrite Hinit. exists a, m'. simpl in Hid, Hmod. repeat split; try assumption. lia.
  - destruct (initialize_agent env (c_instructions request) true None (c_headless request) m0)
      as [[a|e] m'] eqn:Hinit.
    + exfalso. unfold initialize_agent in Hinit. destruct (mcp_enabled env); simpl in *.
      * replace (created m + 1) with (S (created m)) in Hc by lia. now rewrite Hc in Hinit.
      * replace (created m + 0) with (created m) in Hc by lia. now rewrite Hc in Hinit.
    + exists e, m'. split; [reflexivity|].
      now apply initialize_agent_fails in Hinit as [-> _].
Qed.

Lemma update_config_always_rebuilds_witness :
  exists a m',
    update_config quiet_env
      {| c_instructions := None; c_enable_research := true; c_headless := true |}
      (snd (chat_agent quiet_env request_model_x new_manager))
    = (success "Agent reinitialized", m')
    /\ agent m' = Some a
    /\ agent_model a = "anthropic:claude-sonnet-4-20250514".
Proof.
  destruct (proj1 (update_config_always_rebuilds quiet_env
                     {| c_instructions := None; c_enable_research := true;
                        c_headless := true |}
                     (snd (chat_agent quiet_env request_model_x new_manager))) eq_refl)
    as (a & m' & Hrun & Hslot & _ & Hmodel & _).
  exists a, m'. repeat split; assumption.
Defined.

(** X16: on the WebSocket every turn whose stream ends normally is closed
    by one [done] message after one message per snapshot that has a
    content; the first turn whose stream raises is answered with the
    messages sent so far and one error message, the server closes the
    socket, and what the client sent after it is never served. *)
Theorem websocket_failure_ends_the_session
    (rt : AgentRuntime) (agent : Agent) (served : list (list ChatMessage))
    (failing : list ChatMessage) (unserved : list (list ChatMessage)) (e : string) :
  (forall messages, In messages served -> failure (astream rt agent messages) = None) ->
  failure (astream rt agent failing) = Some e ->
  ws_turns rt agent served
  = (flat_map (fun messages =>
                 ws_chunk_messages (chunks (astream rt agent messages)) ++ [ws_done_message])
              served,
     false)
  /\ ws_turns rt agent (served ++ failing :: unserved)
     = (fst (ws_turns rt agent served)
        ++ ws_chunk_messages (chunks (astream rt agent failing)) ++ [ws_error_message e],
        true).
Proof.
  intros Hserved Hfail.
  induction served as [|messages served IH].
  - simpl. now rewrite Hfail.
  - destruct IH as [IH1 IH2]; [intros x Hx; apply Hserved; now right|].
    assert (failure (astream rt agent messages) = None) as Hok by (apply Hserved; now left).
    split.
    + simpl. rewrite Hok, IH1. now rewrite <- app_assoc.
    + simpl. rewrite Hok, IH2. destruct (ws_turns rt agent served) as [sent closed].
      simpl. now rewrite <- !app_assoc.
Qed.

Lemma websocket_failure_ends_the_session_witness :
  ws_turns broken_runtime
    {| agent_id := 0; agent_system_prompt := ""; agent_model := "m";
       agent_headless := true; agent_research := true |}
    ([] ++ [user_says "first"] :: [[user_says "second"]])
  = ([{| ws_type := "message"; ws_content := "partial"; ws_done := Some false |};
      ws_error_message "connection reset"], true).
Proof.
  refine (proj2 (websocket_failure_ends_the_session broken_runtime _ [] [user_says "first"]
                   [[user_says "second"]] "connection reset" _ eq_refl)).
  intros messages [].
Defined.

(** ** The JSON text taken from a structured answer *)

Section ExtractionFacts.

Implicit Types (s t pre body post : string).

Lemma has_char_app c s t : has_char c (s +:+ t) = has_char c s || has_char c t.
Proof. induction s as [|a s IH]; simpl; [reflexivity|]. now rewrite IH, orb_assoc. Qed.

Lemma str_app_assoc s t u : (s +:+ t) +:+ u = s +:+ (t +:+ u).
Proof.
  induction s as [|a s IH]; [reflexivity|].
  change (String a ((s +:+ t) +:+ u) = String a (s +:+ (t +:+ u))). now rewrite IH.
Qed.

Lemma str_app_cons c s t : String c s +:+ t = String c (s +:+ t).
Proof. reflexivity. Qed.

Lemma str_app_nil_l s : EmptyString +:+ s = s.
Proof. reflexivity. Qed.

Lemma upto_last_close_none s :
  upto_last_close s = None <-> has_char close_brace s = false.
Proof.
  induction s as [|c s IH]; simpl; [tauto|].
  destruct (upto_last_close s) as [t|].
  - split; [discriminate|]. intros H. apply orb_false_iff in H as [_ H].
    apply IH in H. discriminate.
  - destruct (Ascii.eqb c close_brace); simpl; [split; discriminate|].
    split; intros _; [now apply IH | reflexivity].
Qed.

Lemma upto_last_close_some s t :
  upto_last_close s = Some t ->
  exists body post,
    t = body +:+ String close_brace EmptyString
    /\ s = t +:+ post /\ has_char close_brace post = false.
Proof.
  revert t. induction s as [|c s IH]; intros t; simpl; [discriminate|].
  destruct (upto_last_close s) as [t'|] eqn:Hs.
  - intros [= <-]. destruct (IH t' eq_refl) as (body & post & -> & -> & Hpost).
    exists (String c body), post. repeat split. exact Hpost.
  - destruct (Ascii.eqb_spec c close_brace) as [->|]; [|discriminate].
    intros [= <-]. exists EmptyString, s. repeat split.
    now apply upto_last_close_none.
Qed.

Lemma upto_last_close_app body post :
  has_char close_brace post = false ->
  upto_last_close (body +:+ String close_brace post)
  = Some (body +:+ String close_brace EmptyString).
Proof.
  intros Hpost. induction body as [|c body IH].
  - rewrite !str_app_nil_l. simpl.
    apply upto_last_close_none in Hpost. now rewrite Hpost.
  - rewrite !str_app_cons. simpl. now rewrite IH.
Qed.

Lemma match_has_braces pre body post :
  has_char open_brace
    (pre +:+ String open_brace (body +:+ String close_brace EmptyString) +:+ post) = true
  /\ has_char close_brace
       (pre +:+ String open_brace (body +:+ String close_brace EmptyString) +:+ post) = true.
Proof.
  rewrite !has_char_app. simpl. rewrite !has_char_app. simpl.
  split.
  - destruct (has_char open_brace pre); reflexivity.
  - destruct (has_char close_brace pre), (has_char close_brace body); reflexivity.
Qed.

Lemma json_match_forward s m :
  json_match s = Some m ->
  exists pre body post,
    s = pre +:+ m +:+ post
    /\ m = String open_brace (body +:+ String close_brace EmptyString)
    /\ has_char open_brace pre = false
    /\ has_char close_brace post = false.
Proof.
  induction s as [|c s IH]; simpl; [discriminate|].
  destruct (Ascii.eqb_spec c open_brace) as [->|Hc].
  - destruct (upto_last_close s) as [t|] eqn:Hs.
    + intros [= <-].
      destruct (upto_last_close_some s t Hs) as (body & post & -> & -> & Hpost).
      exists EmptyString, body, post. repeat split. exact Hpost.
    + intros Hm. exfalso. destruct (IH Hm) as (pre & body & post & -> & -> & _ & _).
      apply upto_last_close_none in Hs.
      destruct (match_has_braces pre body post) as [_ Hclose]. congruence.
  - intros Hm. destruct (IH Hm) as (pre & body & post & -> & -> & Hpre & Hpost).
    exists (String c pre), body, post. repeat split; [|exact Hpost].
    simpl. apply Ascii.eqb_neq in Hc. now rewrite Hc.
Qed.

Lemma json_match_backward pre body post :
  has_char open_brace pre = false ->
  has_char close_brace post = false ->
  json_match (pre +:+ String open_brace (body +:+ String close_brace EmptyString) +:+ post)
  = Some (String open_brace (body +:+ String close_brace EmptyString)).
Proof.
  intros Hpre Hpost. induction pre as [|c pre IH].
  - rewrite str_app_nil_l, str_app_cons, str_app_assoc, str_app_cons, str_app_nil_l.
    simpl. try rewrite Ascii.eqb_refl.
    now rewrite (upto_last_close_app body post Hpost).
  - simpl in Hpre. apply orb_false_iff in Hpre as [Hc Hpre].
    rewrite str_app_cons. simpl. rewrite Hc. now apply IH.
Qed.

End ExtractionFacts.

(** X17: the text [structured_chat] takes out of an answer runs from the
    first opening brace to the last closing brace of the answer: [m] is
    extracted exactly when the answer is [m] between a text without opening
    brace and a text without closing brace, [m] beginning and ending with a
    brace.  So two objects in one answer, as in a JSON array of objects, are
    taken together with everything between them, without the brackets. *)
Theorem json_text_spans_first_to_last_brace (s m : string) :
  json_match s = Some m
  <-> exists pre body post,
        s = pre +:+ m +:+ post
        /\ m = String open_brace (body +:+ String close_brace EmptyString)
        /\ has_char open_brace pre = false
        /\ has_char close_brace post = false.
Proof.
  split; [apply json_match_forward|].
  intros (pre & body & post & -> & -> & Hpre & Hpost).
  now apply json_match_backward.
Qed.

Lemma json_text_spans_first_to_last_brace_witness :
  text_to_parse "[{x}, {y}]" = "{x}, {y}".
Proof.
  unfold text_to_parse.
  rewrite (proj2 (json_text_spans_first_to_last_brace "[{x}, {y}]" "{x}, {y}"));
    [reflexivity|].
  exists "[", "x}, {y", "]". repeat split.
Defined.

(** X18: an answer without any opening brace, or without any closing
    brace, is handed to [json.loads] whole. *)
Theorem text_without_braces_is_parsed_whole (s : string) :
  has_char open_brace s = false \/ has_char close_brace s = false ->
  text_to_parse s = s.
Proof.
  intros Hnone. unfold text_to_parse.
  destruct (json_match s) as [m|] eqn:Hm; [|reflexivity]. exfalso.
  apply json_match_forward in Hm as (pre & body & post & -> & -> & _ & _).
  destruct (match_has_braces pre body post) as [Hopen Hclose].
  destruct Hnone; congruence.
Qed.

Lemma text_without_braces_is_parsed_whole_witness : text_to_parse "[1, 2]" = "[1, 2]".
Proof. apply text_without_braces_is_parsed_whole. left. reflexivity. Defined.

(** ** The MCP server table *)

Section ConfigFacts.

Implicit Types (d acc items servers : list (string * PyValue)) (k name : string) (v : PyValue).

Lemma dict_get_set_same k v d : dict_get k (dict_set k v d) = Some v.
Proof.
  induction d as [|[k' v'] d IH]; simpl; [now rewrite String.eqb_refl|].
  destruct (String.eqb_spec k' k) as [->|Hne]; simpl.
  - now rewrite String.eqb_refl.
  - apply String.eqb_neq in Hne. now rewrite Hne.
Qed.

Lemma dict_get_set_other k k' v d :
  k' <> k -> dict_get k' (dict_set k v d) = dict_get k' d.
Proof.
  intros Hne. induction d as [|[k0 v0] d IH]; simpl.
  - apply not_eq_sym, String.eqb_neq in Hne. now rewrite Hne.
  - destruct (String.eqb_spec k0 k) as [->|Hk]; simpl.
    + apply not_eq_sym, String.eqb_neq in Hne. now rewrite Hne.
    + now rewrite IH.
Qed.

Lemma dict_get_absent k d : ~ In k (map fst d) -> dict_get k d = None.
Proof.
  induction d as [|[k' v'] d IH]; simpl; intros Hk; [reflexivity|].
  destruct (String.eqb_spec k' k) as [->|Hne]; [exfalso; apply Hk; now left|].
  apply IH. intros Hin. apply Hk. now right.
Qed.

Lemma dict_get_in k v d : dict_get k d = Some v -> In (k, v) d.
Proof.
  induction d as [|[k' v'] d IH]; simpl; [discriminate|].
  destruct (String.eqb_spec k' k) as [->|Hne].
  - intros [= ->]. now left.
  - intros H. right. now apply IH.
Qed.

Lemma dict_del_keys k d x : In x (map fst (dict_del k d)) -> In x (map fst d).
Proof.
  induction d as [|[k' v'] d IH]; simpl; [tauto|].
  destruct (String.eqb k' k); simpl; [tauto|]. intros [H|H]; [now left | right; now apply IH].
Qed.

Lemma dict_get_del_same k d : NoDup (map fst d) -> dict_get k (dict_del k d) = None.
Proof.
  induction d as [|[k' v'] d IH]; simpl; intros Hnd; [reflexivity|].
  apply NoDup_cons in Hnd as [Hk Hnd].
  destruct (String.eqb_spec k' k) as [->|Hne].
  - apply dict_get_absent. intros Hin. apply Hk, list_elem_of_In, Hin.
  - simpl. apply String.eqb_neq in Hne. rewrite Hne. now apply IH.
Qed.

Lemma dict_get_del_other k k' d :
  k' <> k -> dict_get k' (dict_del k d) = dict_get k' d.
Proof.
  intros Hne. induction d as [|[k0 v0] d IH]; simpl; [reflexivity|].
  destruct (String.eqb_spec k0 k) as [->|Hk]; simpl.
  - apply not_eq_sym, String.eqb_neq in Hne. now rewrite Hne.
  - now rewrite IH.
Qed.

Lemma dict_set_keys k v d x :
  In x (map fst (dict_set k v d)) <-> x = k \/ In x (map fst d).
Proof.
  induction d as [|[k' v'] d IH]; simpl; [intuition|].
  destruct (String.eqb_spec k' k) as [->|Hne]; simpl; [intuition|].
  rewrite IH. intuition.
Qed.

Lemma dict_set_nodup k v d : NoDup (map fst d) -> NoDup (map fst (dict_set k v d)).
Proof.
  induction d as [|[k' v'] d IH]; simpl; intros Hnd.
  - apply NoDup_singleton.
  - apply NoDup_cons in Hnd as [Hk Hnd].
    destruct (String.eqb_spec k' k) as [->|Hne]; simpl.
    + apply NoDup_cons. now split.
    + apply NoDup_cons. split; [|now apply IH].
      intros Hin. apply list_elem_of_In, dict_set_keys in Hin as [->|Hin]; [congruence|].
      apply Hk, list_elem_of_In, Hin.
Qed.

Lemma dict_set_values_in k v d k0 v0 :
  In (k0, v0) (dict_set k v d) -> (k0, v0) = (k, v) \/ In (k0, v0) d.
Proof.
  induction d as [|[k' v'] d IH]; simpl; [intuition|].
  destruct (String.eqb k' k); simpl; intuition.
Qed.

Lemma dict_del_nodup k d : NoDup (map fst d) -> NoDup (map fst (dict_del k d)).
Proof.
  induction d as [|[k' v'] d IH]; simpl; intros Hnd; [exact Hnd|].
  apply NoDup_cons in Hnd as [Hk Hnd].
  destruct (String.eqb k' k); [exact Hnd|]. simpl.
  apply NoDup_cons. split; [|now apply IH].
  intros Hin. apply Hk, list_elem_of_In, (dict_del_keys k), list_elem_of_In, Hin.
Qed.

Lemma dict_del_values_in k d k0 v0 : In (k0, v0) (dict_del k d) -> In (k0, v0) d.
Proof.
  induction d as [|[k' v'] d IH]; simpl; [tauto|].
  destruct (String.eqb k' k); simpl; intuition.
Qed.

Lemma server_table_set name cfg servers :
  server_table servers -> server_table (dict_set name (PyDict cfg) servers).
Proof.
  intros [Hnd Hdict]. split; [now apply dict_set_nodup|].
  intros n v Hin. apply dict_set_values_in in Hin as [[= -> ->]|Hin]; eauto.
Qed.

Lemma server_table_del name servers :
  server_table servers -> server_table (dict_del name servers).
Proof.
  intros [Hnd Hdict]. split; [now apply dict_del_nodup|].
  intros n v Hin. apply dict_del_values_in in Hin. eauto.
Qed.

Lemma without_enabled_has_no_switch cfg : dict_get "enabled" (without_enabled cfg) = None.
Proof.
  unfold without_enabled.
  induction cfg as [|[k v] cfg IH]; simpl; [reflexivity|].
  destruct (String.eqb_spec k "enabled") as [->|Hne]; simpl; [exact IH|].
  apply String.eqb_neq in Hne. now rewrite Hne.
Qed.

(** The loop of [get_enabled_servers], by lookup. *)
Lemma enabled_loop_lookup items : forall acc,
  server_table items ->
  (forall name, In name (map fst items) -> dict_get name acc = None) ->
  exists r,
    enabled_loop items acc = Returned r
    /\ forall name,
         dict_get name r = match dict_get name items with
                           | Some v => enabled_entry v
                           | None => dict_get name acc
                           end.
Proof.
  induction items as [|[n v] items IH]; intros acc [Hnd Hdict] Hfresh.
  - exists acc. now split.
  - apply NoDup_cons in Hnd as [Hn Hnd].
    assert (server_table items) as Htable.
    { split; [exact Hnd|]. intros n0 v0 Hin. apply (Hdict n0 v0). now right. }
    destruct (Hdict n v) as [cfg ->]; [now left|].
    assert (dict_get n items = None) as Hnone.
    { apply dict_get_absent. intros Hin. apply Hn, list_elem_of_In, Hin. }
    simpl enabled_loop.
    destruct (py_truthy (default (PyBool false) (dict_get "enabled" cfg))) eqn:Hen.
    + destruct (IH (dict_set n (PyDict (without_enabled cfg)) acc) Htable) as (r & Hr & Hlook).
      { intros name Hin. rewrite dict_get_set_other.
        - apply Hfresh. now right.
        - intros ->. apply Hn, list_elem_of_In, Hin. }
      exists r. split; [exact Hr|]. intros name. rewrite Hlook. simpl.
      destruct (String.eqb_spec n name) as [->|Hne].
      * rewrite Hnone, dict_get_set_same. simpl. now rewrite Hen.
      * destruct (dict_get name items); [reflexivity|].
        apply dict_get_set_other. congruence.
    + destruct (IH acc Htable) as (r & Hr & Hlook).
      { intros name Hin. apply Hfresh. now right. }
      exists r. split; [exact Hr|]. intros name. rewrite Hlook. simpl.
      destruct (String.eqb_spec n name) as [->|Hne]; [|reflexivity].
      rewrite Hnone. simpl. rewrite Hen. apply Hfresh. now left.
Qed.

Lemma get_enabled_servers_lookup config servers :
  dict_get "mcp_servers" config = Some (PyDict servers) ->
  server_table servers ->
  exists r,
    get_enabled_servers config = Returned r
    /\ forall name,
         dict_get name r = match dict_get name servers with
                           | Some v => enabled_entry v
                           | None => None
                           end.
Proof.
  intros Hget Htable. unfold get_enabled_servers. rewrite Hget. simpl.
  destruct (enabled_loop_lookup servers [] Htable) as (r & Hr & Hlook); [reflexivity|].
  exists r. split; [exact Hr|]. intros name. rewrite Hlook.
  now destruct (dict_get name servers).
Qed.

End ConfigFacts.

(** X19: [get_enabled_servers] returns, for a table of server dicts,
    exactly the servers whose ["enabled"] value is truthy, each without its
    ["enabled"] key and with all its other keys; a server without the key
    counts as disabled. *)
Theorem enabled_servers_are_the_switched_on
    (config servers : list (string * PyValue)) :
  dict_get "mcp_servers" config = Some (PyDict servers) ->
  NoDup (map fst servers) ->
  (forall name v, In (name, v) servers -> exists cfg, v = PyDict cfg) ->
  exists enabled_servers,
    get_enabled_servers config = Returned enabled_servers
    /\ (forall name,
          dict_get name enabled_servers
          = match dict_get name servers with
            | Some (PyDict cfg) =>
                if py_truthy (default (PyBool false) (dict_get "enabled" cfg))
                then Some (PyDict (List.filter
                                     (fun kv => negb (String.eqb (fst kv) "enabled")) cfg))
                else None
            | _ => None
            end)
    /\ (forall name cfg,
          dict_get name enabled_servers = Some (PyDict cfg) ->
          dict_get "enabled" cfg = None)
    /\ (forall name cfg,
          dict_get name servers = Some (PyDict cfg) ->
          dict_get "enabled" cfg = None ->
          dict_get name enabled_servers = None).
Proof.
  intros Hget Hnd Hdict.
  destruct (get_enabled_servers_lookup config servers Hget (conj Hnd Hdict))
    as (r & Hr & Hlook).
  exists r. split; [exact Hr|]. split; [|split].
  - intros name. rewrite Hlook. destruct (dict_get name servers) as [v|]; [|reflexivity].
    now destruct v.
  - intros name cfg Hin. rewrite Hlook in Hin.
    destruct (dict_get name servers) as [v|]; [|discriminate].
    destruct v as [| | | | |c|]; try discriminate. simpl in Hin.
    destruct (py_truthy _); [|discriminate]. injection Hin as <-.
    apply without_enabled_has_no_switch.
  - intros name cfg Hs Hnone. rewrite Hlook, Hs. simpl. now rewrite Hnone.
Qed.

Lemma enabled_servers_are_the_switched_on_witness :
  get_enabled_servers default_config = Returned [].
Proof.
  destruct (enabled_servers_are_the_switched_on default_config
              [("example_filesystem",
                PyDict [("command", PyStr "npx");
                        ("args", PyList [PyStr "-y";
                                         PyStr "@modelcontextprotocol/server-filesystem";
                                         PyStr "./workspace"]);
                        ("transport", PyStr "stdio");
                        ("enabled", PyBool false)])] eq_refl)
    as (r & Hr & _).
  - cbn [map fst]. apply NoDup_singleton.
  - intros name v [[= <- <-]|[]]. eauto.
  - rewrite Hr. vm_compute in Hr. now injection Hr as <-.
Defined.

Section EndpointFacts.

Variable env : Env.

Implicit Types (st : AppState) (servers : list (string * PyValue)).

Lemma save_and_reload_config save_fails rebuild message new_config st :
  config (snd (save_and_reload env save_fails rebuild message new_config st)) = new_config.
Proof.
  unfold save_and_reload. destruct save_fails; [reflexivity|].
  destruct rebuild; [|reflexivity].
  now destruct (reinitialize_agent_on env new_config None None true (manager st)) as [[a|e] m].
Qed.

Lemma save_and_reload_file rebuild message new_config st :
  config_file (snd (save_and_reload env false rebuild message new_config st))
  = Some (json_dumps_indent 2 0 (PyDict new_config)).
Proof.
  unfold save_and_reload. destruct rebuild; [|reflexivity].
  now destruct (reinitialize_agent_on env new_config None None true (manager st)) as [[a|e] m].
Qed.

(** What [add_mcp_server] leaves in memory, whatever happens to the file
    and to the agent. *)
Lemma add_mcp_server_config save_fails server_name server_config st servers :
  get_mcp_servers st = PyDict servers ->
  dict_get "mcp_servers" (config (snd (add_mcp_server env save_fails server_name
                                         server_config st)))
  = Some (PyDict (dict_set server_name (server_entry server_config) servers)).
Proof.
  unfold get_mcp_servers, add_mcp_server. intros Hservers.
  destruct (dict_get "mcp_servers" (config st)) as [v|] eqn:Hget; simpl in Hservers.
  - subst v. rewrite Hget. rewrite save_and_reload_config. apply dict_get_set_same.
  - injection Hservers as <-. rewrite dict_get_set_same.
    rewrite save_and_reload_config. apply dict_get_set_same.
Qed.

Lemma reinitialize_drops_old config0 (m : AgentManager) old :
  manager_ok m -> agent m = Some old ->
  agent (snd (reinitialize_agent_on env config0 None None true m)) <> Some old.
Proof.
  intros Hok Hold. unfold reinitialize_agent_on.
  destruct (get_enabled_servers config0) as [enabled_servers|e]; [|discriminate].
  unfold reinitialize_agent.
  destruct (initialize_agent (env_with_servers env enabled_servers) None true None true _)
    as [[a|e] m'] eqn:Hinit; simpl.
  - apply initialize_agent_stores in Hinit as (-> & _ & _ & _ & _ & Hid). simpl in Hid.
    intros [= ->]. specialize (Hok old Hold). lia.
  - apply initialize_agent_fails in Hinit as [-> _]. discriminate.
Qed.

End EndpointFacts.

(** X20: after [add_mcp_server], whether or not the file could be written
    and the agent rebuilt, the table in memory holds the server, and the
    enabled servers are those of before except for this one, which is among
    them, with its command, arguments and environment, exactly when it was
    added as enabled. *)
Theorem added_server_follows_its_switch
    (process : Env) (save_fails : bool) (server_name : string)
    (server_config : MCPServerConfig) (st : AppState)
    (servers : list (string * PyValue)) :
  get_mcp_servers st = PyDict servers ->
  NoDup (map fst servers) ->
  (forall name v, In (name, v) servers -> exists cfg, v = PyDict cfg) ->
  let st' := snd (add_mcp_server process save_fails server_name server_config st) in
  get_mcp_servers st' = PyDict (dict_set server_name (server_entry server_config) servers)
  /\ exists before after,
       get_enabled_servers (config st) = Returned before
       /\ get_enabled_servers (config st') = Returned after
       /\ dict_get server_name after
          = (if enabled server_config
             then Some (PyDict [("command", PyStr (command server_config));
                                ("args", PyList (map PyStr (args server_config)));
                                ("env", PyDict (map (fun kv => (fst kv, PyStr (snd kv)))
                                                    (default [] (env server_config))))])
             else None)
       /\ forall other, other <> server_name ->
                        dict_get other after = dict_get other before.
Proof.
  intros Hservers Hnd Hdict st'. subst st'.
  pose proof (add_mcp_server_config process save_fails server_name server_config st servers
                Hservers) as Hafter.
  split; [unfold get_mcp_servers; now rewrite Hafter|].
  assert (server_table servers) as Htable by (split; assumption).
  assert (exists before,
            get_enabled_servers (config st) = Returned before
            /\ forall name, dict_get name before
                            = match dict_get name servers with
                              | Some v => enabled_entry v
                              | None => None
                              end) as (before & Hbefore & Hlook0).
  { unfold get_mcp_servers in Hservers.
    destruct (dict_get "mcp_servers" (config st)) as [v|] eqn:Hget; simpl in Hservers.
    - subst v. now apply get_enabled_servers_lookup.
    - injection Hservers as <-. exists []. unfold get_enabled_servers. rewrite Hget.
      now split. }
  destruct (get_enabled_servers_lookup _ _ Hafter
              (server_table_set server_name _ servers Htable)) as (after & Hr & Hlook).
  exists before, after. split; [exact Hbefore|]. split; [exact Hr|]. split.
  - rewrite Hlook, dict_get_set_same. simpl. now destruct (enabled server_config).
  - intros other Hother. rewrite Hlook, Hlook0. now rewrite dict_get_set_other.
Qed.

Lemma added_server_follows_its_switch_witness :
  exists after,
    get_enabled_servers
      (config (snd (add_mcp_server quiet_env false "files" filesystem_server fresh_app)))
    = Returned after
    /\ dict_get "files" after
       = Some (PyDict [("command", PyStr "npx");
                       ("args", PyList [PyStr "-y";
                                        PyStr "@modelcontextprotocol/server-filesystem";
                                        PyStr "./workspace"]);
                       ("env", PyDict [])])
    /\ dict_get "example_filesystem" after = None.
Proof.
  destruct (added_server_follows_its_switch quiet_env false "files" filesystem_server
              fresh_app
              [("example_filesystem",
                PyDict [("command", PyStr "npx");
                        ("args", PyList [PyStr "-y";
                                         PyStr "@modelcontextprotocol/server-filesystem";
                                         PyStr "./workspace"]);
                        ("transport", PyStr "stdio");
                        ("enabled", PyBool false)])] eq_refl)
    as (_ & before & after & Hb & Ha & Hnew & Hold).
  - cbn [map fst]. apply NoDup_singleton.
  - intros name v [[= <- <-]|[]]. eauto.
  - exists after. split; [exact Ha|]. split; [exact Hnew|].
    rewrite Hold by discriminate. vm_compute in Hb. now injection Hb as <-.
Defined.

(** X21: when the configuration file cannot be opened, [add_mcp_server]
    answers with HTTP 500 and leaves the file and the agent as they were,
    yet the server is in the table held in memory. *)
Theorem failed_save_keeps_memory_change
    (env : Env) (server_name : string) (server_config : MCPServerConfig) (st : AppState)
    (servers : list (string * PyValue)) :
  get_mcp_servers st = PyDict servers ->
  let result := add_mcp_server env true server_name server_config st in
  fst result = HTTPException 500 "OSError: open"
  /\ config_file (snd result) = config_file st
  /\ manager (snd result) = manager st
  /\ exists servers',
       get_mcp_servers (snd result) = PyDict servers'
       /\ dict_get server_name servers' = Some (server_entry server_config).
Proof.
  intros Hservers result. subst result.
  pose proof (add_mcp_server_config env true server_name server_config st servers Hservers)
    as Hafter.
  assert (fst (add_mcp_server env true server_name server_config st)
          = HTTPException 500 "OSError: open"
          /\ config_file (snd (add_mcp_server env true server_name server_config st))
             = config_file st
          /\ manager (snd (add_mcp_server env true server_name server_config st))
             = manager st) as (H1 & H2 & H3).
  { unfold get_mcp_servers in Hservers. unfold add_mcp_server.
    destruct (dict_get "mcp_servers" (config st)) as [v|] eqn:Hget; simpl in Hservers.
    - subst v. rewrite Hget. now repeat split.
    - rewrite dict_get_set_same. now repeat split. }
  repeat split; try assumption.
  exists (dict_set server_name (server_entry server_config) servers). split.
  - unfold get_mcp_servers. now rewrite Hafter.
  - apply dict_get_set_same.
Qed.

Lemma failed_save_keeps_memory_change_witness :
  fst (add_mcp_server quiet_env true "files" filesystem_server fresh_app)
  = HTTPException 500 "OSError: open"
  /\ config_file (snd (add_mcp_server quiet_env true "files" filesystem_server fresh_app))
     = None.
Proof.
  destruct (failed_save_keeps_memory_change quiet_env "files" filesystem_server fresh_app
              _ eq_refl) as (H1 & H2 & _).
  split; [exact H1 | exact H2].
Defined.

(** X22: when the file is written, it holds the indented JSON of the
    configuration in memory; and adding a server as disabled answers with
    success without touching the agent. *)
Theorem saved_file_mirrors_memory
    (env : Env) (server_name : string) (server_config : MCPServerConfig) (st : AppState)
    (servers : list (string * PyValue)) :
  get_mcp_servers st = PyDict servers ->
  let result := add_mcp_server env false server_name server_config st in
  config_file (snd result) = Some (json_dumps_indent 2 0 (PyDict (config (snd result))))
  /\ (enabled server_config = false ->
      fst result = success ("MCP server '" +:+ server_name +:+ "' configured")
      /\ manager (snd result) = manager st).
Proof.
  intros Hservers result. subst result.
  unfold get_mcp_servers in Hservers. unfold add_mcp_server.
  destruct (dict_get "mcp_servers" (config st)) as [v|] eqn:Hget; simpl in Hservers.
  - subst v. rewrite Hget. rewrite save_and_reload_file, save_and_reload_config.
    split; [reflexivity|]. intros ->. now split.
  - rewrite dict_get_set_same. rewrite save_and_reload_file, save_and_reload_config.
    split; [reflexivity|]. intros ->. now split.
Qed.

Lemma saved_file_mirrors_memory_witness :
  manager (snd (add_mcp_server quiet_env false "files"
                  {| command := "npx"; args := []; env := None; enabled := false |}
                  fresh_app))
  = manager fresh_app.
Proof.
  exact (proj2 (proj2 (saved_file_mirrors_memory quiet_env "files"
                         {| command := "npx"; args := []; env := None; enabled := false |}
                         fresh_app _ eq_refl) eq_refl)).
Defined.

(** X23: deleting a server that is not in the table is answered with HTTP
    500, not 404: the 404 raised inside the handler is caught by its own
    [except Exception], and its text becomes the detail of the 500.
    Nothing is changed, saved or rebuilt. *)
Theorem deleting_unknown_server_answers_500
    (env : Env) (http_str : nat -> string -> string) (save_fails : bool)
    (server_name : string) (st : AppState) (servers : list (string * PyValue)) :
  get_mcp_servers st = PyDict servers ->
  dict_get server_name servers = None ->
  delete_mcp_server env http_str save_fails server_name st
  = (HTTPException 500 (http_str 404 "Server not found"), st).
Proof.
  unfold get_mcp_servers, delete_mcp_server. intros Hservers Hnone.
  destruct (dict_get "mcp_servers" (config st)) as [v|]; simpl in Hservers; [|reflexivity].
  subst v. now rewrite Hnone.
Qed.

Lemma deleting_unknown_server_answers_500_witness :
  delete_mcp_server quiet_env http_str_sample false "nope" fresh_app
  = (HTTPException 500 "404: Server not found", fresh_app).
Proof.
  exact (deleting_unknown_server_answers_500 quiet_env http_str_sample false "nope"
           fresh_app _ eq_refl eq_refl).
Defined.

(** X24: deleting a server that is in the table removes it and leaves the
    other servers as they are, writes the file, and always rebuilds the
    agent, also when the server was disabled: the agent held before is
    never the one held afterwards. *)
Theorem deleting_a_server_rebuilds
    (env : Env) (http_str : nat -> string -> string) (server_name : string)
    (st : AppState) (servers : list (string * PyValue)) (v : PyValue) :
  dict_get "mcp_servers" (config st) = Some (PyDict servers) ->
  NoDup (map fst servers) ->
  dict_get server_name servers = Some v ->
  manager_ok (manager st) ->
  let st' := snd (delete_mcp_server env http_str false server_name st) in
  exists servers',
    get_mcp_servers st' = PyDict servers'
    /\ dict_get server_name servers' = None
    /\ (forall other, other <> server_name ->
                      dict_get other servers' = dict_get other servers)
    /\ config_file st' = Some (json_dumps_indent 2 0 (PyDict (config st')))
    /\ (forall old, agent (manager st) = Some old -> agent (manager st') <> Some old).
Proof.
  intros Hget Hnd Hv Hok st'. subst st'.
  unfold delete_mcp_server. rewrite Hget, Hv.
  exists (dict_del server_name servers).
  rewrite save_and_reload_file, save_and_reload_config.
  split; [unfold get_mcp_servers; rewrite save_and_reload_config;
          now rewrite dict_get_set_same|].
  split; [now apply dict_get_del_same|].
  split; [intros other Hother; now apply dict_get_del_other|].
  split; [reflexivity|].
  intros old Hold. unfold save_and_reload.
  pose proof (reinitialize_drops_old env
                (dict_set "mcp_servers" (PyDict (dict_del server_name servers)) (config st))
                (manager st) old Hok Hold) as Hdrop.
  destruct (reinitialize_agent_on env _ None None true (manager st)) as [[a|e] m]; exact Hdrop.
Qed.

Lemma deleting_a_server_rebuilds_witness :
  get_mcp_servers (snd (delete_mcp_server quiet_env http_str_sample false
                          "example_filesystem" fresh_app))
  = PyDict [].
Proof.
  destruct (deleting_a_server_rebuilds quiet_env http_str_sample "example_filesystem"
              fresh_app _ _ eq_refl
              ltac:(cbn [map fst]; apply NoDup_singleton) eq_refl new_manager_ok)
    as (servers' & Hs & _).
  rewrite Hs. vm_compute in Hs. now injection Hs as <-.
Defined.

(** ** The schema instruction of a structured request *)

Section InstructionFacts.

Implicit Types (l : list ChatMessage) (instruction : string).

Lemma limit_history_last l : last (limit_history l) = last l.
Proof.
  unfold limit_history. destruct (Z.ltb_spec 10 (Z.of_nat (length l))); [|reflexivity].
  rewrite !last_lookup, length_drop, lookup_drop. f_equal. lia.
Qed.

Lemma append_to_last_user_other instruction l :
  (forall m, last l = Some m -> role m <> "user") ->
  append_to_last_user instruction l = l.
Proof.
  intros Hrole. destruct (decide (l = [])) as [->|Hne]; [reflexivity|].
  destruct (proj2 (last_is_Some l) Hne) as [m Hm].
  pose proof (Hrole m Hm) as Hr. apply last_Some in Hm as [l' ->].
  rewrite append_to_last_user_snoc. unfold with_instruction.
  apply String.eqb_neq in Hr. now rewrite Hr.
Qed.

End InstructionFacts.

(** X25: [structured_chat] tells the agent about the schema only through
    the last message, and only when that message is the user's: for a
    request whose last message has another role, or that has no message,
    the agent gets the kept messages without any schema instruction. *)
Theorem schema_instruction_needs_a_last_user_message (request : StructuredChatRequest) :
  (forall m, last (s_messages request) = Some m -> role m <> "user") ->
  structured_chat_messages request
  = (if (10 <? Z.of_nat (length (s_messages request)))%Z
     then drop (length (s_messages request) - 10) (s_messages request)
     else s_messages request).
Proof.
  intros Hrole. unfold structured_chat_messages.
  rewrite append_to_last_user_other; [reflexivity|].
  intros m Hm. rewrite limit_history_last in Hm. now apply Hrole.
Qed.

Lemma schema_instruction_needs_a_last_user_message_witness :
  structured_chat_messages
    {| s_messages := [user_says "list two primes";
                      {| role := "assistant"; content := "Which range?" |}];
       structured_output_format := [("type", PyStr "object")];
       s_system_prompt := None; s_model := None;
       s_enable_research := false; s_headless := true |}
  = [user_says "list two primes"; {| role := "assistant"; content := "Which range?" |}].
Proof.
  apply (schema_instruction_needs_a_last_user_message
           {| s_messages := [user_says "list two primes";
                             {| role := "assistant"; content := "Which range?" |}];
              structured_output_format := [("type", PyStr "object")];
              s_system_prompt := None; s_model := None;
              s_enable_research := false; s_headless := true |}).
  intros m [= <-]. discriminate.
Defined.
